(** * Quantum Circuit Builder: grid editing and Python generation

    A shallow embedding of [src/QuantumCircuitBuilder.js].  The React
    component keeps its state in hooks; here the state is a record and every
    event handler is a function from the state of the render in which the
    handler was created to the state after its updates were applied.

    Grid indices (column, target, control, pair) are integers and are
    rendered in decimal, as JavaScript renders integer-valued numbers.
    Angles and the two size fields are JavaScript numbers. *)

From Stdlib Require Import QArith Lqa.
From stdpp Require Import gmap strings list pretty sorting.

Local Open Scope Z_scope.

(** ** JavaScript numbers *)

Module JS.

(** A number is NaN, an infinity, or a finite value (a rational; the sign
    of zero is not observable in this program). *)
Inductive number : Type :=
| NaN
| Infinity (negative : bool)
| Finite (q : Q).

Definition ofZ (z : Z) : number := Finite (inject_Z z).

(** Two representations of the same number. *)
Definition same (a b : number) : Prop :=
  match a, b with
  | NaN, NaN => True
  | Infinity s, Infinity t => s = t
  | Finite p, Finite q => (p == q)%Q
  | _, _ => False
  end.

(** [Number.isFinite] *)
Definition isFinite (x : number) : bool :=
  match x with Finite _ => true | _ => false end.

(** The integer a number denotes, when [Number.isInteger] holds of it. *)
Definition toInteger (x : number) : option Z :=
  match x with
  | Finite q =>
      if (Qnum q mod Zpos (Qden q) =? 0)%Z then Some (Qnum q / Zpos (Qden q))%Z
      else None
  | _ => None
  end.

(** [Number.isInteger] *)
Definition isInteger (x : number) : bool :=
  match toInteger x with Some _ => true | None => false end.

(** [a < b]; false as soon as one side is NaN. *)
Definition lt (a b : number) : bool :=
  match a, b with
  | NaN, _ | _, NaN => false
  | Infinity true, Infinity true => false
  | Infinity true, _ => true
  | _, Infinity true => false
  | Infinity false, _ => false
  | _, Infinity false => true
  | Finite p, Finite q =>
      match (p ?= q)%Q with Lt => true | _ => false end
  end.

(** [a >= b]; false as soon as one side is NaN. *)
Definition ge (a b : number) : bool :=
  match a, b with
  | NaN, _ | _, NaN => false
  | _, _ => negb (lt a b)
  end.

(** [a === b] on numbers. *)
Definition strictEq (a b : number) : bool :=
  match a, b with
  | Finite p, Finite q => Qeq_bool p q
  | Infinity s, Infinity t => Bool.eqb s t
  | _, _ => false
  end.

(** [Math.min(a, b)] and [Math.max(a, b)]: NaN is contagious. *)
Definition min (a b : number) : number :=
  match a, b with
  | NaN, _ | _, NaN => NaN
  | _, _ => if lt b a then b else a
  end.

Definition max (a b : number) : number :=
  match a, b with
  | NaN, _ | _, NaN => NaN
  | _, _ => if lt a b then b else a
  end.

End JS.

(** ** Gates *)

Module GateType.
Inductive t : Type :=
| H | X | Y | Z | S | T | RX | RY | RZ | CNOT | CZ | SWAP | MEASURE.
End GateType.
Abbreviation GateType := GateType.t.

Global Instance GateType_eq_dec : EqDecision GateType.
Proof. solve_decision. Defined.

(** The names under which the palette drags the gate types. *)
Definition typeName (t : GateType) : string :=
  match t with
  | GateType.H => "H" | GateType.X => "X" | GateType.Y => "Y"
  | GateType.Z => "Z" | GateType.S => "S" | GateType.T => "T"
  | GateType.RX => "RX" | GateType.RY => "RY" | GateType.RZ => "RZ"
  | GateType.CNOT => "CNOT" | GateType.CZ => "CZ" | GateType.SWAP => "SWAP"
  | GateType.MEASURE => "MEASURE"
  end.

Definition GATE_PALETTE : list GateType :=
  [ GateType.H; GateType.X; GateType.Y; GateType.Z; GateType.S; GateType.T;
    GateType.RX; GateType.RY; GateType.RZ;
    GateType.CNOT; GateType.CZ; GateType.SWAP; GateType.MEASURE ].

(** The gate type a dropped text names, if any (the palette only drags the
    names above; any other text, the empty one included, places nothing). *)
Definition typeOfName (s : string) : option GateType :=
  list_find (fun t => typeName t = s) GATE_PALETTE ≫= fun '(_, t) => Some t.

(** The [Gate] typedef: optional properties are options. *)
Record Gate : Type := mkGate {
  id : string;
  type : GateType;
  column : Z;
  target : Z;
  control : option Z;
  pair : option Z;
  angle : option JS.number
}.

(** [g.type === "CNOT" || g.type === "CZ"] *)
Definition isControlled (t : GateType) : bool :=
  match t with GateType.CNOT | GateType.CZ => true | _ => false end.

Definition isSwap (t : GateType) : bool :=
  match t with GateType.SWAP => true | _ => false end.

(** ** Jupyter sessions *)

Record Kernel : Type := mkKernel { kernelName : string }.

(** A session connection; its [kernel] field is null once the kernel died. *)
Record Session : Type := mkSession {
  sessionPath : string;
  kernel : option Kernel
}.

(** ** Component state *)

Record State : Type := mkState {
  numQubits : JS.number;
  numColumns : JS.number;
  gates : list Gate;
  python : string;
  notebookCode : string;
  jupyterSessionRef : option Session;
  jupyterOut : string;
  jupyterBusy : bool;
  jupyterBaseUrl : string;
  jupyterToken : string
}.

Definition initialState (baseUrl token : string) : State :=
  {| numQubits := JS.ofZ 3; numColumns := JS.ofZ 12; gates := [];
     python := ""; notebookCode := ""; jupyterSessionRef := None;
     jupyterOut := ""; jupyterBusy := false;
     jupyterBaseUrl := baseUrl; jupyterToken := token |}.

(** State setters; the functional form receives the previous value. *)
Definition setNumQubits (n : JS.number) (st : State) : State :=
  mkState n (numColumns st) (gates st) (python st) (notebookCode st)
    (jupyterSessionRef st) (jupyterOut st) (jupyterBusy st)
    (jupyterBaseUrl st) (jupyterToken st).

Definition setNumColumns (n : JS.number) (st : State) : State :=
  mkState (numQubits st) n (gates st) (python st) (notebookCode st)
    (jupyterSessionRef st) (jupyterOut st) (jupyterBusy st)
    (jupyterBaseUrl st) (jupyterToken st).

Definition setGates (f : list Gate -> list Gate) (st : State) : State :=
  mkState (numQubits st) (numColumns st) (f (gates st)) (python st)
    (notebookCode st) (jupyterSessionRef st) (jupyterOut st) (jupyterBusy st)
    (jupyterBaseUrl st) (jupyterToken st).

Definition setPython (code : string) (st : State) : State :=
  mkState (numQubits st) (numColumns st) (gates st) code (notebookCode st)
    (jupyterSessionRef st) (jupyterOut st) (jupyterBusy st)
    (jupyterBaseUrl st) (jupyterToken st).

Definition setNotebookCode (code : string) (st : State) : State :=
  mkState (numQubits st) (numColumns st) (gates st) (python st) code
    (jupyterSessionRef st) (jupyterOut st) (jupyterBusy st)
    (jupyterBaseUrl st) (jupyterToken st).

Definition setSessionRef (s : option Session) (st : State) : State :=
  mkState (numQubits st) (numColumns st) (gates st) (python st)
    (notebookCode st) s (jupyterOut st) (jupyterBusy st)
    (jupyterBaseUrl st) (jupyterToken st).

Definition setJupyterOut (f : string -> string) (st : State) : State :=
  mkState (numQubits st) (numColumns st) (gates st) (python st)
    (notebookCode st) (jupyterSessionRef st) (f (jupyterOut st))
    (jupyterBusy st) (jupyterBaseUrl st) (jupyterToken st).

Definition setJupyterBusy (b : bool) (st : State) : State :=
  mkState (numQubits st) (numColumns st) (gates st) (python st)
    (notebookCode st) (jupyterSessionRef st) (jupyterOut st) b
    (jupyterBaseUrl st) (jupyterToken st).

(** ** Occupancy of the grid *)

(** The key [`${col}:${row}`] of a cell. *)
Definition cellKey (col row : Z) : string :=
  pretty col +:+ ":" +:+ pretty row.

(** One iteration of the loop that fills the occupancy map. *)
Definition occupy (map : gmap string Gate) (g : Gate) : gmap string Gate :=
  let map := <[cellKey (column g) (target g) := g]> map in
  let map :=
    if isControlled (type g) then
      match control g with
      | Some c => <[cellKey (column g) c := g]> map
      | None => map
      end
    else map in
  if isSwap (type g) then
    match pair g with
    | Some p => <[cellKey (column g) p := g]> map
    | None => map
    end
  else map.

Definition occupancy (gs : list Gate) : gmap string Gate :=
  fold_left occupy gs ∅.

(** [Boolean(occupancy[`${col}:${row}`])]: a stored gate is an object, hence
    truthy; a missing key reads as undefined. *)
Definition cellHasGate (gs : list Gate) (row col : Z) : bool :=
  match occupancy gs !! cellKey col row with
  | Some _ => true
  | None => false
  end.

(** ** Editing the gate list *)

(** What a handler leaves behind: its return value, the next state and the
    alerts it raised, in order. *)
Record Outcome (A : Type) : Type := mkOutcome {
  value : A;
  after : State;
  alerts : list string
}.
Arguments mkOutcome {A} _ _ _.
Arguments value {A} _.
Arguments after {A} _.
Arguments alerts {A} _.

Definition clearAll (st : State) : State :=
  setNotebookCode "" (setPython "" (setGates (fun _ => []) st)).

(** [prev.slice(0, -1)] *)
Definition slice_0_m1 {A : Type} (prev : list A) : list A :=
  take (length prev - 1)%nat prev.

Definition undo (st : State) : State :=
  setGates slice_0_m1 st.

Definition placeGate (st : State) (newGate : Gate) : Outcome bool :=
  if cellHasGate (gates st) (target newGate) (column newGate) then
    mkOutcome false st ["Cell already occupied."]
  else
    let afterControl :=
      if isControlled (type newGate) then
        match control newGate with
        | None => Some (mkOutcome false st [])
        | Some c =>
            if cellHasGate (gates st) c (column newGate) then
              Some (mkOutcome false st ["Control/target cell already occupied."])
            else None
        end
      else None in
    match afterControl with
    | Some out => out
    | None =>
        let afterSwap :=
          if isSwap (type newGate) then
            match pair newGate with
            | None => Some (mkOutcome false st [])
            | Some p =>
                if cellHasGate (gates st) p (column newGate) then
                  Some (mkOutcome false st ["Swap partner cell already occupied."])
                else None
            end
          else None in
        match afterSwap with
        | Some out => out
        | None => mkOutcome true (setGates (fun prev => prev ++ [newGate]) st) []
        end
    end.

(** The filter predicate of [removeGateAt]: true keeps the gate. *)
Definition keepAt (row col : Z) (g : Gate) : bool :=
  if negb (column g =? col) then true
  else if target g =? row then false
  else if isControlled (type g) && bool_decide (control g = Some row) then false
  else if isSwap (type g) && bool_decide (pair g = Some row) then false
  else true.

Definition removeGateAt (st : State) (row col : Z) : State :=
  setGates (fun prev => List.filter (keepAt row col) prev) st.

(** ** Dropping a gate on the grid *)

(** [uid(prefix)]: the random suffix is an input of the model. *)
Definition uid (prefix rnd : string) : string := prefix +:+ "_" +:+ rnd.

Definition isSingle (t : GateType) : bool :=
  match t with
  | GateType.H | GateType.X | GateType.Y | GateType.Z | GateType.S | GateType.T
  | GateType.MEASURE => true
  | _ => false
  end.

Definition isRotation (t : GateType) : bool :=
  match t with GateType.RX | GateType.RY | GateType.RZ => true | _ => false end.

(** The validity test applied to the other qubit of a two-qubit gate:
    [!Number.isInteger(q) || q < 0 || q >= numQubits || q === row]. *)
Definition invalidQubit (st : State) (row : Z) (q : JS.number) : bool :=
  negb (JS.isInteger q) || JS.lt q (JS.ofZ 0) || JS.ge q (numQubits st)
  || JS.strictEq q (JS.ofZ row).

(** Arrays are mutable objects.  A store holds the contents of every gate
    array by reference, so that copying ([[...a]]) and sorting in place
    ([a.sort(cmp)]) can be told apart. *)
Abbreviation store := (list (list Gate)).

Section Builder.

(** The conversions between text and numbers are the language's own:
    [Number(text)] and the text a number has in a template literal. *)
Variable Number : string -> JS.number.
Variable numberToString : JS.number -> string.

(** [handleDrop(e, row, col)].  [data] is the text carried by the drag,
    [answer] what [window.prompt] returns if it is shown ([None] when the
    dialog is cancelled), [rnd] the random part of the new gate's id. *)
Definition handleDrop (st : State) (data : string) (row col : Z)
    (answer : option string) (rnd : string) : Outcome unit :=
  let finish (o : Outcome bool) := mkOutcome () (after o) (alerts o) in
  match typeOfName data with
  | None => mkOutcome () st []
  | Some type =>
      if isSingle type then
        finish (placeGate st (mkGate (uid data rnd) type col row None None None))
      else if isRotation type then
        match answer with
        | None => mkOutcome () st []
        | Some input =>
            let angle := Number input in
            if negb (JS.isFinite angle) then mkOutcome () st ["Invalid angle."]
            else
              finish (placeGate st
                (mkGate (uid data rnd) type col row None None (Some angle)))
        end
      else if isControlled type then
        match answer with
        | None => mkOutcome () st []
        | Some control =>
            let ctrl := Number control in
            if invalidQubit st row ctrl then
              mkOutcome () st ["Invalid control qubit."]
            else
              finish (placeGate st
                (mkGate (uid data rnd) type col row (JS.toInteger ctrl) None None))
        end
      else if isSwap type then
        match answer with
        | None => mkOutcome () st []
        | Some pair =>
            let pr := Number pair in
            if invalidQubit st row pr then
              mkOutcome () st ["Invalid partner qubit."]
            else
              finish (placeGate st
                (mkGate (uid data rnd) type col row None (JS.toInteger pr) None))
        end
      else mkOutcome () st []
  end.

(** The change handlers of the two size inputs. *)
Definition onChangeQubits (st : State) (v : string) : State :=
  setNumQubits (JS.max (JS.ofZ 1) (JS.min (JS.ofZ 16) (Number v))) st.

Definition onChangeColumns (st : State) (v : string) : State :=
  setNumColumns (JS.max (JS.ofZ 1) (JS.min (JS.ofZ 48) (Number v))) st.

(** ** Arrays of gates *)

Definition readArray (h : store) (r : nat) : list Gate :=
  default [] (h !! r).

(** [[...a]]: a fresh array with the same elements. *)
Definition spread (h : store) (a : nat) : nat * store :=
  (length h, h ++ [readArray h a]).

(** Insertion of [x] in front of the first element it does not follow. *)
Fixpoint insertBy {A : Type} (cmp : A -> A -> Z) (x : A) (l : list A) : list A :=
  match l with
  | [] => [x]
  | y :: l' => if cmp x y <=? 0 then x :: l else y :: insertBy cmp x l'
  end.

(** The stable sort by a comparator that [Array.prototype.sort] performs. *)
Definition sortBy {A : Type} (cmp : A -> A -> Z) (l : list A) : list A :=
  foldr (insertBy cmp) [] l.

(** [a.sort(cmp)]: reorders [a] itself and returns it. *)
Definition sortInPlace (cmp : Gate -> Gate -> Z) (h : store) (a : nat) : nat * store :=
  (a, <[a := sortBy cmp (readArray h a)]> h).

(** [(a, b) => a.column - b.column || a.target - b.target] *)
Definition byColumnThenTarget (a b : Gate) : Z :=
  let d := column a - column b in
  if d =? 0 then target a - target b else d.

(** [new Set(xs)]: the distinct elements in order of first occurrence. *)
Definition newSet (xs : list Z) : list Z :=
  fold_left (fun s x => if bool_decide (x ∈ s) then s else s ++ [x]) xs [].

(** ** Generating Python *)

Definition nl : string := String (Ascii.ascii_of_nat 10) "".

(** The text of an optional index in a template literal. *)
Definition indexText (o : option Z) : string :=
  match o with Some z => pretty z | None => "undefined" end.

(** [g.angle ?? 0] in a template literal. *)
Definition angleText (g : Gate) : string :=
  numberToString (default (JS.ofZ 0) (angle g)).

(** The [switch (g.type)] of the loop: the lines it pushes for [g]. *)
Definition gateLines (g : Gate) : list string :=
  match type g with
  | GateType.H => ["qc.h(" +:+ pretty (target g) +:+ ")" +:+ nl]
  | GateType.X => ["qc.x(" +:+ pretty (target g) +:+ ")" +:+ nl]
  | GateType.Y => ["qc.y(" +:+ pretty (target g) +:+ ")" +:+ nl]
  | GateType.Z => ["qc.z(" +:+ pretty (target g) +:+ ")" +:+ nl]
  | GateType.S => ["qc.s(" +:+ pretty (target g) +:+ ")" +:+ nl]
  | GateType.T => ["qc.t(" +:+ pretty (target g) +:+ ")" +:+ nl]
  | GateType.RX => ["qc.rx(" +:+ angleText g +:+ ", " +:+ pretty (target g) +:+ ")" +:+ nl]
  | GateType.RY => ["qc.ry(" +:+ angleText g +:+ ", " +:+ pretty (target g) +:+ ")" +:+ nl]
  | GateType.RZ => ["qc.rz(" +:+ angleText g +:+ ", " +:+ pretty (target g) +:+ ")" +:+ nl]
  | GateType.CNOT =>
      ["qc.cx(" +:+ indexText (control g) +:+ ", " +:+ pretty (target g) +:+ ")" +:+ nl]
  | GateType.CZ =>
      ["qc.cz(" +:+ indexText (control g) +:+ ", " +:+ pretty (target g) +:+ ")" +:+ nl]
  | GateType.SWAP =>
      ["qc.swap(" +:+ pretty (target g) +:+ ", " +:+ indexText (pair g) +:+ ")" +:+ nl]
  | GateType.MEASURE => []
  end.

Definition columnComment (k : Z) : string :=
  nl +:+ "# --- Column " +:+ pretty k +:+ " ---" +:+ nl.

(** One iteration of [for (const g of sorted)], on [lines] and
    [currentCol]. *)
Definition emitGate (acc : list string * Z) (g : Gate) : list string * Z :=
  let '(lines, currentCol) := acc in
  let '(lines, currentCol) :=
    if bool_decide (column g ≠ currentCol)
    then (lines ++ [columnComment (column g)], column g)
    else (lines, currentCol) in
  (lines ++ gateLines g, currentCol).

Definition measureLine (q : Z) : string :=
  "qc.measure(" +:+ pretty q +:+ ", " +:+ pretty q +:+ ")" +:+ nl.

Definition isMeasure (g : Gate) : bool :=
  match type g with GateType.MEASURE => true | _ => false end.

Definition preamble (n : JS.number) : list string :=
  [ "# Auto-generated by Quantum Circuit Builder (React)" +:+ nl;
    "# Requires: qiskit, qiskit-aer" +:+ nl;
    "from qiskit import QuantumCircuit" +:+ nl +:+
      "from qiskit_aer import AerSimulator" +:+ nl +:+ nl;
    "n_qubits = " +:+ numberToString n +:+ nl;
    "qc = QuantumCircuit(n_qubits, n_qubits)" +:+ nl +:+ nl ].

Definition measurementHeading : string := nl +:+ "# Measurement" +:+ nl.

Definition measureAll : string :=
  "for q in range(n_qubits):" +:+ nl +:+ "    qc.measure(q, q)" +:+ nl.

Definition simulate : string :=
  nl +:+ "# Simulate with AerSimulator" +:+ nl +:+
  "sim = AerSimulator()" +:+ nl +:+
  "result = sim.run(qc, shots=1024).result()" +:+ nl +:+
  "counts = result.get_counts()" +:+ nl +:+
  "print(counts)" +:+ nl.

(** The [lines] array of [generatePython] just before it is joined, for a
    gate array that lives at [gatesRef] in the store [h]; the store after
    the run is returned as well. *)
Definition generateLines (n : JS.number) (h : store) (gatesRef : nat)
    : list string * store :=
  let '(copy, h) := spread h gatesRef in
  let '(sorted, h) := sortInPlace byColumnThenTarget h copy in
  let markedMeasure :=
    newSet (map target (List.filter isMeasure (readArray h sorted))) in
  let lines := preamble n in
  let '(lines, _) := fold_left emitGate (readArray h sorted) (lines, -1) in
  let lines := lines ++ [measurementHeading] in
  let lines :=
    if (0 <? length markedMeasure)%nat
    then lines ++ map measureLine (sortBy Z.sub markedMeasure)
    else lines ++ [measureAll] in
  (lines ++ [simulate], h).

(** [lines.join("")] *)
Definition join (lines : list string) : string :=
  foldr String.append "" lines.

(** [generatePython()]: the gate array of the state is the only array in
    the store when the handler starts. *)
Definition generatePython (st : State) : State :=
  let code := join (generateLines (numQubits st) [gates st] 0%nat).1 in
  setNotebookCode code (setPython code st).

(** ** Running on a Jupyter kernel

    The notebook service is outside the program.  What the handlers send
    to it is recorded as a list of calls; what it answers is an input. *)
Inductive Call : Type :=
| StartNew (baseUrl : string) (token : option string)
| RequestExecute (k : Kernel) (code : string) (stop_on_error : bool).

(** The IOPub messages the output handler tells apart. *)
Inductive IOPub : Type :=
| Stream (text : string)
| Error (ename evalue : string) (traceback : list string)
| ExecuteResult (textPlain : option string)
| DisplayData (textPlain : option string)
| OtherMessage.

Record Service : Type := mkService {
  (** what [sessions.startNew] resolves to, or the text of its rejection *)
  startNewResult : Session + string;
  (** the messages published while the request runs *)
  published : list IOPub;
  (** the text of the rejection of [future.done], if it is rejected *)
  doneError : option string;
  (** the text of the TypeError raised by a call on a null kernel *)
  nullKernelError : string
}.

(** [async function ensureJupyterSession()]: the session or the text of the
    exception, the next state and the calls made. *)
Definition ensureJupyterSession (st : State) (srv : Service)
    : (Session + string) * State * list Call :=
  let startNew :=
    let token := if bool_decide (jupyterToken st = "") then None
                 else Some (jupyterToken st) in
    let calls := [StartNew (jupyterBaseUrl st) token] in
    match startNewResult srv with
    | inl session => (inl session, setSessionRef (Some session) st, calls)
    | inr e => (inr e, st, calls)
    end in
  match jupyterSessionRef st with
  | Some current =>
      match kernel current with
      | Some _ => (inl current, st, [])
      | None => startNew
      end
  | None => startNew
  end.

(** [future.onIOPub] *)
Definition onIOPub (st : State) (msg : IOPub) : State :=
  match msg with
  | Stream text => setJupyterOut (fun prev => prev +:+ text) st
  | Error ename evalue traceback =>
      setJupyterOut (fun prev =>
        prev +:+ nl +:+ "[ERR] " +:+ ename +:+ ": " +:+ evalue +:+ nl +:+
        String.concat nl traceback +:+ nl) st
  | ExecuteResult textPlain | DisplayData textPlain =>
      match textPlain with
      | Some text =>
          if bool_decide (text = "") then st
          else setJupyterOut (fun prev => prev +:+ text +:+ nl) st
      | None => st
      end
  | OtherMessage => st
  end.

(** [async function runOnJupyter()].  [python] is the text of the render
    in which the handler was created: a [setPython] made on the way only
    shows in the next state. *)
Definition runOnJupyter (st : State) (srv : Service) : State * list Call :=
  let failed (e : string) (s : State) :=
    setJupyterBusy false
      (setJupyterOut (fun prev => prev +:+ nl +:+ "[ERR] " +:+ e +:+ nl) s) in
  let st1 := if bool_decide (python st = "") then generatePython st else st in
  let st2 := setJupyterOut (fun _ => "") (setJupyterBusy true st1) in
  match ensureJupyterSession st2 srv with
  | (inr e, st3, calls) => (failed e st3, calls)
  | (inl session, st3, calls) =>
      match kernel session with
      | None => (failed (nullKernelError srv) st3, calls)
      | Some k =>
          let calls := calls ++ [RequestExecute k (python st) true] in
          let st4 := fold_left onIOPub (published srv) st3 in
          match doneError srv with
          | Some e => (failed e st4, calls)
          | None =>
              (setJupyterBusy false
                 (setJupyterOut (fun prev => prev +:+ nl +:+ "[done]" +:+ nl) st4),
               calls)
          end
      end
  end.

End Builder.

(** * Specification vocabulary *)

(** Occurrence of a character in a text. *)
Fixpoint occursIn (c : Ascii.ascii) (s : string) : bool :=
  match s with
  | EmptyString => false
  | String d s' => bool_decide (c = d) || occursIn c s'
  end.

Definition colon : Ascii.ascii := Ascii.ascii_of_nat 58.

(** A gate occupies its target cell, a CNOT or CZ also its control cell and
    a SWAP also its pair cell. *)
Definition occupies (g : Gate) (col row : Z) : Prop :=
  column g = col ∧
  (target g = row
   ∨ (isControlled (type g) = true ∧ control g = Some row)
   ∨ (isSwap (type g) = true ∧ pair g = Some row)).

Definition occupied (gs : list Gate) (col row : Z) : Prop :=
  ∃ g, g ∈ gs ∧ occupies g col row.

Global Instance occupies_dec (g : Gate) (col row : Z) : Decision (occupies g col row).
Proof. unfold occupies. apply _. Defined.

(** The gates [placeGate] turns down. *)
Definition rejected (gs : list Gate) (g : Gate) : Prop :=
  occupied gs (column g) (target g)
  ∨ (isControlled (type g) = true ∧
       (control g = None ∨ ∃ c, control g = Some c ∧ occupied gs (column g) c))
  ∨ (isSwap (type g) = true ∧
       (pair g = None ∨ ∃ p, pair g = Some p ∧ occupied gs (column g) p)).

(** ** A text/number conversion to run the handlers on examples

    It reads decimal integer literals (the empty text as 0, anything else as
    NaN) and writes integers in decimal. *)

Definition digitOf (c : Ascii.ascii) : option Z :=
  let n := Z.of_nat (Ascii.nat_of_ascii c) in
  if (48 <=? n) && (n <=? 57) then Some (n - 48) else None.

Fixpoint digitsValue (s : string) (acc : Z) : option Z :=
  match s with
  | EmptyString => Some acc
  | String c s' => d ← digitOf c; digitsValue s' (10 * acc + d)
  end.

Definition integerLiteral (s : string) : JS.number :=
  match s with
  | EmptyString => JS.ofZ 0
  | String c s' =>
      if bool_decide (c = Ascii.ascii_of_nat 45) then
        match s' with
        | EmptyString => JS.NaN
        | _ => from_option (fun z => JS.ofZ (- z)) JS.NaN (digitsValue s' 0)
        end
      else from_option JS.ofZ JS.NaN (digitsValue s 0)
  end.

Definition numberText (x : JS.number) : string :=
  match x with
  | JS.NaN => "NaN"
  | JS.Infinity true => "-Infinity"
  | JS.Infinity false => "Infinity"
  | JS.Finite q =>
      match JS.toInteger x with
      | Some z => pretty z
      | None => pretty (Qnum q) +:+ "/" +:+ pretty (Zpos (Qden q))
      end
  end.

(** ** Example states *)

Definition emptyBoard : State := initialState "http://localhost:8888" "".

Definition cnot_0_1 : Gate :=
  mkGate "CNOT_a1" GateType.CNOT 0 1 (Some 0) None None.

Definition h_2 : Gate := mkGate "H_b2" GateType.H 0 2 None None None.

(** ** Invalid answers to the prompts *)

(** The other qubit of a two-qubit gate is invalid when the number entered is
    not an integer, is below 0, is at or above [numQubits], or is the target
    row itself. *)
Definition badQubit (n : JS.number) (row : Z) (q : JS.number) : Prop :=
  match JS.toInteger q with
  | None => True
  | Some z => z < 0 ∨ JS.ge (JS.ofZ z) n = true ∨ z = row
  end.

(** The answers after which [handleDrop] must add nothing: the prompt of a
    rotation or of a two-qubit gate was cancelled, the angle of a rotation is
    not a finite number, or the other qubit of a two-qubit gate is invalid. *)
Definition invalidAnswer (Number : string -> JS.number) (st : State)
    (type : GateType) (row : Z) (answer : option string) : Prop :=
  (isRotation type = true
   ∧ (answer = None
      ∨ ∃ input, answer = Some input ∧ JS.isFinite (Number input) = false))
  ∨ ((isControlled type = true ∨ isSwap type = true)
     ∧ (answer = None
        ∨ ∃ input, answer = Some input
                   ∧ badQubit (numQubits st) row (Number input))).

(** ** Editing sessions *)

(** One edit of the circuit: a drop on a cell, a double click on a cell, the
    Undo button or the Clear button. *)
Inductive edit (Number : string -> JS.number) : State -> State -> Prop :=
| edit_drop st data row col answer rnd :
    edit Number st (after (handleDrop Number st data row col answer rnd))
| edit_remove st row col : edit Number st (removeGateAt st row col)
| edit_undo st : edit Number st (undo st)
| edit_clear st : edit Number st (clearAll st).

(** The states an editing session can be in, starting without gates. *)
Inductive reachable (Number : string -> JS.number) : State -> Prop :=
| reachable_empty st : gates st = [] -> reachable Number st
| reachable_edit st st' :
    reachable Number st -> edit Number st st' -> reachable Number st'.

(** Two gates share no cell. *)
Definition disjointCells (g1 g2 : Gate) : Prop :=
  ∀ col row, occupies g1 col row → ¬ occupies g2 col row.

(** Neither the control nor the pair of a gate is its own target. *)
Definition endpointsApart (g : Gate) : Prop :=
  control g ≠ Some (target g) ∧ pair g ≠ Some (target g).

Definition boardWithCnot : State :=
  after (handleDrop integerLiteral emptyBoard "CNOT" 1 0 (Some "0") "a1").

(** ** Clamping *)

(** [r] is the number [x] clamped into the range [lo] to [hi] inclusive. *)
Definition clampedTo (lo hi : Z) (x r : JS.number) : Prop :=
  match x with
  | JS.NaN => False
  | JS.Infinity true => r = JS.ofZ lo
  | JS.Infinity false => r = JS.ofZ hi
  | JS.Finite q =>
      ((q < inject_Z lo)%Q → r = JS.ofZ lo)
      ∧ ((inject_Z hi < q)%Q → r = JS.ofZ hi)
      ∧ ((inject_Z lo <= q <= inject_Z hi)%Q → JS.same r x)
  end.

(** ** Example of a connected state *)

Definition liveSession : Session :=
  mkSession "quantum-react.ipynb" (Some (mkKernel "python3")).

Definition connectedBoard : State :=
  setPython "print(1)" (setSessionRef (Some liveSession) emptyBoard).

Definition quietService : Service :=
  mkService (inr "unreachable") [] None "TypeError".

(** ** Generated code *)

(** Ascending column, ties broken by ascending target. *)
Definition columnThenTarget (a b : Gate) : Prop :=
  column a < column b ∨ (column a = column b ∧ target a ≤ target b).

(** The lines the loop over the sorted gates pushes when it starts with
    [currentCol = cur]. *)
Fixpoint emitted (numberToString : JS.number -> string) (cur : Z) (l : list Gate)
    : list string :=
  match l with
  | [] => []
  | g :: l' =>
      (if bool_decide (column g ≠ cur) then [columnComment (column g)] else [])
      ++ gateLines numberToString g ++ emitted numberToString (column g) l'
  end.

(** The lines pushed after the measurement heading. *)
Definition measurementOf (sorted : list Gate) : list string :=
  let markedMeasure := newSet (map target (List.filter isMeasure sorted)) in
  if (0 <? length markedMeasure)%nat
  then map measureLine (sortBy Z.sub markedMeasure)
  else [measureAll].

(** A call [qc.method(arg, ...)] on a line of its own. *)
Definition call (method : string) (args : list string) : string :=
  "qc." +:+ method +:+ "(" +:+ String.concat ", " args +:+ ")" +:+ nl.

Definition simpleMethod (t : GateType) : option string :=
  match t with
  | GateType.H => Some "h" | GateType.X => Some "x" | GateType.Y => Some "y"
  | GateType.Z => Some "z" | GateType.S => Some "s" | GateType.T => Some "t"
  | _ => None
  end.

Definition rotationMethod (t : GateType) : option string :=
  match t with
  | GateType.RX => Some "rx" | GateType.RY => Some "ry" | GateType.RZ => Some "rz"
  | _ => None
  end.

Definition controlledMethod (t : GateType) : option string :=
  match t with
  | GateType.CNOT => Some "cx" | GateType.CZ => Some "cz"
  | _ => None
  end.

(** The table of code-line templates: the operation lines a gate stands for.
    A measurement has none. *)
Inductive template (numberToString : JS.number -> string) : Gate -> list string -> Prop :=
| template_simple g m :
    simpleMethod (type g) = Some m ->
    template numberToString g [call m [pretty (target g)]]
| template_rotation g m :
    rotationMethod (type g) = Some m ->
    template numberToString g
      [call m [numberToString (default (JS.ofZ 0) (angle g)); pretty (target g)]]
| template_controlled g m c :
    controlledMethod (type g) = Some m -> control g = Some c ->
    template numberToString g [call m [pretty c; pretty (target g)]]
| template_swap g p :
    type g = GateType.SWAP -> pair g = Some p ->
    template numberToString g [call "swap" [pretty (target g); pretty p]]
| template_measure g :
    type g = GateType.MEASURE -> template numberToString g [].

(** The lines a gate contributes to the per-column part: possibly the
    comment of its column, then the lines of its template and nothing else. *)
Definition gateSection (numberToString : JS.number -> string) (g : Gate)
    (ls : list string) : Prop :=
  ∃ comment, (comment = [] ∨ comment = [columnComment (column g)])
    ∧ ∀ t, template numberToString g t → ls = comment ++ t.

(** The per-column part in which the comment of a column stands once, before
    the first gate of that column. *)
Fixpoint columnSections (numberToString : JS.number -> string) (seen : list Z)
    (l : list Gate) : list string :=
  match l with
  | [] => []
  | g :: l' =>
      (if bool_decide (column g ∈ seen) then [] else [columnComment (column g)])
      ++ gateLines numberToString g
      ++ columnSections numberToString (column g :: seen) l'
  end.

(** The least column that holds a gate is [k]. *)
Definition leastColumnIs (k : Z) (gs : list Gate) : Prop :=
  (∃ g, g ∈ gs ∧ column g = k) ∧ ∀ g, g ∈ gs → k ≤ column g.

(** The gates come out by ascending column, ties by ascending target, the
    comment of every column that holds a gate stands once, before the first
    gate of the column, and the gate array of the state is left as it was. *)
Definition columnsCommentedOnce (numberToString : JS.number -> string)
    (st : State) : Prop :=
  let run := generateLines numberToString (numQubits st) [gates st] 0%nat in
  ∃ sorted,
    sorted ≡ₚ gates st
    ∧ StronglySorted columnThenTarget sorted
    ∧ run.1 = preamble numberToString (numQubits st)
              ++ columnSections numberToString [] sorted
              ++ [measurementHeading] ++ measurementOf sorted ++ [simulate]
    ∧ python (generatePython numberToString st) = join run.1
    ∧ run.2 !! 0%nat = Some (gates st)
    ∧ gates (generatePython numberToString st) = gates st.

(** A board, as a design file can load it, whose only gate sits in column
    -1. *)
Definition markerBoard : State :=
  setGates (fun _ => [mkGate "H_c3" GateType.H (-1) 0 None None None]) emptyBoard.

(** A board built by five drops. *)
Definition sampleBoard : State :=
  let drop st '(data, row, col, answer, rnd) :=
    after (handleDrop integerLiteral st data row col answer rnd) in
  fold_left drop
    [ ("H", 0, 1, None, "a");
      ("CNOT", 1, 0, Some "0", "b");
      ("MEASURE", 2, 2, None, "c");
      ("MEASURE", 0, 3, None, "d");
      ("RX", 2, 1, Some "2", "e") ]
    emptyBoard.

(** * Further vocabulary *)

(** ** The gates an editing session builds *)

(** The shape [handleDrop] gives a gate of each type: a single-qubit gate or
    a measurement carries nothing else, a rotation a finite angle, a CNOT/CZ
    a control and a SWAP a pair, both off the target. *)
Definition wellFormed (g : Gate) : Prop :=
  if isSingle (type g) then
    control g = None ∧ pair g = None ∧ angle g = None
  else if isRotation (type g) then
    control g = None ∧ pair g = None
    ∧ ∃ a, angle g = Some a ∧ JS.isFinite a = true
  else if isControlled (type g) then
    pair g = None ∧ angle g = None
    ∧ ∃ c, control g = Some c ∧ c ≠ target g
  else
    control g = None ∧ angle g = None
    ∧ ∃ p, pair g = Some p ∧ p ≠ target g.

(** The gate a drop of [data] on cell ([row], [col]) stands for, given the
    answer to the prompt: none for a single-qubit gate, a finite angle for a
    rotation, and for a two-qubit gate an integer from 0 up to, but not
    including, [numQubits] that is not the row. *)
Inductive dropMakes (Number : string -> JS.number) (st : State)
    (data : string) (row col : Z) (rnd : string)
    : option string -> Gate -> Prop :=
| drop_single type answer :
    typeOfName data = Some type -> isSingle type = true ->
    dropMakes Number st data row col rnd answer
      (mkGate (uid data rnd) type col row None None None)
| drop_rotation type input :
    typeOfName data = Some type -> isRotation type = true ->
    JS.isFinite (Number input) = true ->
    dropMakes Number st data row col rnd (Some input)
      (mkGate (uid data rnd) type col row None None (Some (Number input)))
| drop_controlled type input c :
    typeOfName data = Some type -> isControlled type = true ->
    JS.toInteger (Number input) = Some c ->
    0 ≤ c -> JS.ge (JS.ofZ c) (numQubits st) = false -> c ≠ row ->
    dropMakes Number st data row col rnd (Some input)
      (mkGate (uid data rnd) type col row (Some c) None None)
| drop_swap input p :
    typeOfName data = Some GateType.SWAP ->
    JS.toInteger (Number input) = Some p ->
    0 ≤ p -> JS.ge (JS.ofZ p) (numQubits st) = false -> p ≠ row ->
    dropMakes Number st data row col rnd (Some input)
      (mkGate (uid data rnd) GateType.SWAP col row None (Some p) None).

(** The last gate of the list that occupies a cell. *)
Definition lastOccupant (gs : list Gate) (col row : Z) : option Gate :=
  last (filter (fun g => occupies g col row) gs).

Definition boardWithTwo : State :=
  after (handleDrop integerLiteral boardWithCnot "H" 2 0 None "b2").

(** ** Edits made on the grid *)






(** ** Drawing a cell *)

(** What [cellDecoration] returns when it does not return null. *)
Record Decoration : Type := mkDecoration {
  top : Z;
  bottom : Z;
  symbol : option string;
  kind : GateType
}.

(** The test of [gates.find] in [cellDecoration]: a two-qubit gate of the
    column whose other qubit is a number. *)
Definition spansColumn (col : Z) (g : Gate) : bool :=
  (column g =? col)
  && ((isControlled (type g) && bool_decide (is_Some (control g)))
      || (isSwap (type g) && bool_decide (is_Some (pair g)))).

(** [cellDecoration(row, col)].  The other qubit of the gate found is a
    number by the test of [find], so the last branch is never taken. *)
Definition cellDecoration (gs : list Gate) (row col : Z) : option Decoration :=
  match List.find (spansColumn col) gs with
  | None => None
  | Some multi =>
      let other := if isSwap (type multi) then pair multi else control multi in
      match other with
      | Some o =>
          let top := Z.min (target multi) o in
          let bottom := Z.max (target multi) o in
          if (row <? top) || (bottom <? row) then None
          else
            let symbol :=
              if row =? target multi then
                match type multi with
                | GateType.CNOT => Some "⊕"
                | GateType.CZ => Some "Z"
                | GateType.SWAP => Some "×"
                | _ => None
                end
              else if isControlled (type multi)
                      && bool_decide (control multi = Some row) then Some "•"
              else if isSwap (type multi)
                      && bool_decide (pair multi = Some row) then Some "×"
              else None in
            Some (mkDecoration top bottom symbol (type multi))
      | None => None
      end
  end.

(** What a cell shows: a pill with a text, the blank square kept for the
    endpoint of a two-qubit gate, the vertical connector with its symbol if
    it has one, or nothing. *)
Inductive CellView : Type :=
| ViewPill (text : string)
| ViewSpacer
| ViewConnector (symbol : option string)
| ViewNothing.

(** [["H", "X", "Y", "Z", "S", "T"].includes(t)] *)
Definition isPlain (t : GateType) : bool :=
  match t with
  | GateType.H | GateType.X | GateType.Y | GateType.Z | GateType.S | GateType.T =>
      true
  | _ => false
  end.

Section Drawing.

Variable Number : string -> JS.number.
Variable numberToString : JS.number -> string.
(** [x.toFixed(4)] *)
Variable toFixed4 : JS.number -> string.

(** [renderCellContent(row, col)] *)
Definition renderCellContent (gs : list Gate) (row col : Z) : CellView :=
  match occupancy gs !! cellKey col row with
  | Some g =>
      if isPlain (type g) then ViewPill (typeName (type g))
      else if isRotation (type g) then
        ViewPill (typeName (type g) +:+
                  match angle g with
                  | Some a => "(" +:+ numberToString (Number (toFixed4 a)) +:+ ")"
                  | None => "(θ)"
                  end)
      else if isMeasure g then ViewPill "⟨M⟩"
      else ViewSpacer
  | None =>
      match cellDecoration gs row col with
      | Some deco => ViewConnector (symbol deco)
      | None => ViewNothing
      end
  end.

End Drawing.

(** ** Exporting the text *)

Record Download : Type := mkDownload {
  fileName : string;
  mimeType : string;
  content : string
}.

(** [doDownload()]: the file made from the [python] text of the render the
    function belongs to. *)
Definition doDownload (st : State) : Download :=
  mkDownload "generated_circuit.py" "text/x-python"
    (if bool_decide (python st = "") then "# (empty)" +:+ nl else python st).

(** [downloadPython()]: the next state and the files downloaded.  The timer
    set when there is no text yet runs the [doDownload] of this render. *)
Definition downloadPython (numberToString : JS.number -> string) (st : State)
    : State * list Download :=
  if bool_decide (python st = "") then
    (generatePython numberToString st, [doDownload st])
  else (st, [doDownload st]).

(** The click handler of the Copy button: the next state and the text
    written to the clipboard. *)
Definition onCopy (numberToString : JS.number -> string) (st : State)
    : State * string :=
  let st' := if bool_decide (python st = "") then generatePython numberToString st
             else st in
  (st', python st).

(** ** Settings kept in the browser *)

(** The page: the component, the two modal flags and the local storage of
    the browser, where a missing item reads as null. *)
Record Page : Type := mkPage {
  component : State;
  showNotebook : bool;
  showJupyterSettings : bool;
  localStorage : gmap string string
}.

(** [item || fallback] on an item read from the storage. *)
Definition itemOr (item : option string) (fallback : string) : string :=
  match item with
  | Some s => if bool_decide (s = "") then fallback else s
  | None => fallback
  end.

(** The page as a load of the document mounts it. *)
Definition mount (storage : gmap string string) : Page :=
  mkPage
    (initialState
       (itemOr (storage !! "jupyterBaseUrl") "http://localhost:8888")
       (itemOr (storage !! "jupyterToken") ""))
    false false storage.

Definition setJupyterBaseUrl (b : string) (st : State) : State :=
  mkState (numQubits st) (numColumns st) (gates st) (python st)
    (notebookCode st) (jupyterSessionRef st) (jupyterOut st) (jupyterBusy st)
    b (jupyterToken st).

Definition setJupyterToken (t : string) (st : State) : State :=
  mkState (numQubits st) (numColumns st) (gates st) (python st)
    (notebookCode st) (jupyterSessionRef st) (jupyterOut st) (jupyterBusy st)
    (jupyterBaseUrl st) t.

(** The [onSave] handler given to the settings modal. *)
Definition onSave (b t : string) (p : Page) : Page :=
  mkPage
    (setJupyterToken t (setJupyterBaseUrl b (component p)))
    (showNotebook p) false
    (<["jupyterToken" := t]> (<["jupyterBaseUrl" := b]> (localStorage p))).

(** ** The in-app notebook *)

Definition isWordChar (c : Ascii.ascii) : bool :=
  let n := Ascii.nat_of_ascii c in
  ((48 <=? n) && (n <=? 57) || (65 <=? n) && (n <=? 90)
   || (97 <=? n) && (n <=? 122) || (n =? 95))%nat.

(** [word] stands at the head of [s] and a word boundary follows it. *)
Fixpoint wordAhead (word s : string) : bool :=
  match word, s with
  | EmptyString, EmptyString => true
  | EmptyString, String c _ => negb (isWordChar c)
  | String w word', String c s' => bool_decide (w = c) && wordAhead word' s'
  | String _ _, EmptyString => false
  end.

(** The search of [/\b(qiskit|AerSimulator)\b/] from a position whose
    previous character is a word character or not. *)
Fixpoint detectFrom (afterWordChar : bool) (s : string) : bool :=
  if negb afterWordChar && (wordAhead "qiskit" s || wordAhead "AerSimulator" s)
  then true
  else
    match s with
    | EmptyString => false
    | String c s' => detectFrom (isWordChar c) s'
    end.

(** [/\b(qiskit|AerSimulator)\b/.test(cell)] *)
Definition qiskitDetected (cell : string) : bool := detectFrom false cell.

Record Notebook : Type := mkNotebook {
  cell : string;
  output : string;
  running : bool
}.

Definition defaultCell : string :=
  "# Paste/generated Python here" +:+ nl +:+ "print('Hello from Pyodide')" +:+ nl.

(** The notebook as it opens on [code]: [useState(code || defaultCell)]. *)
Definition openNotebook (code : string) : Notebook :=
  mkNotebook (if bool_decide (code = "") then defaultCell else code) "" false.

(** What [runPythonAsync] resolves to (the empty text for no value), or the
    text of the exception it is rejected with. *)
Inductive Reply : Type :=
| Returned (result : string)
| Raised (e : string).

Definition capturePrelude : string :=
  "import sys
class _Cap:
    def __init__(self):
        self.buf = []
    def write(self, s):
        self.buf.append(s)
    def flush(self):
        pass
_stdout, _stderr = sys.stdout, sys.stderr
sys.stdout = _Cap()
sys.stderr = _Cap()".

Definition readStdout : string := "''.join(sys.stdout.buf)".
Definition readStderr : string := "''.join(sys.stderr.buf)".
Definition restoreStreams : string := "sys.stdout = _stdout; sys.stderr = _stderr".

(** [run()] of the notebook.  The runtime is [None] while it is not loaded;
    otherwise it answers each snippet given the snippets run so far.  The
    result is the notebook afterwards and the snippets run, in order. *)
Definition run (api : option (list string -> Reply)) (nb : Notebook)
    : Notebook * list string :=
  match api with
  | None => (nb, [])
  | Some py =>
      let failed (prev e : string) (sent : list string) :=
        (mkNotebook (cell nb) (prev +:+ nl +:+ "[ERR] " +:+ e) false, sent) in
      let sent1 := [capturePrelude] in
      match py sent1 with
      | Raised e => failed "" e sent1
      | Returned _ =>
          let sent2 := sent1 ++ [cell nb] in
          match py sent2 with
          | Raised e => failed "" e sent2
          | Returned _ =>
              let sent3 := sent2 ++ [readStdout] in
              match py sent3 with
              | Raised e => failed "" e sent3
              | Returned out =>
                  let sent4 := sent3 ++ [readStderr] in
                  match py sent4 with
                  | Raised e => failed "" e sent4
                  | Returned err =>
                      let shown :=
                        out +:+ (if bool_decide (err = "") then ""
                                 else nl +:+ "[stderr]" +:+ nl +:+ err) in
                      let sent5 := sent4 ++ [restoreStreams] in
                      match py sent5 with
                      | Raised e => failed shown e sent5
                      | Returned _ => (mkNotebook (cell nb) shown false, sent5)
                      end
                  end
              end
          end
      end
  end.

(** A service that starts the session [liveSession]. *)
Definition startingService : Service :=
  mkService (inl liveSession) [Stream "{'00': 1024}"] None "TypeError".

(** The state a run asks the session for: the text generated if there was
    none, the busy flag set and the output emptied. *)
Definition prepared (numberToString : JS.number -> string) (st : State) : State :=
  setJupyterOut (fun _ => "")
    (setJupyterBusy true
       (if bool_decide (python st = "") then generatePython numberToString st
        else st)).

(** Two states that differ at most in the output and the busy flag of the
    Jupyter run. *)
Definition sameButRun (a b : State) : Prop :=
  numQubits a = numQubits b ∧ numColumns a = numColumns b
  ∧ gates a = gates b ∧ python a = python b
  ∧ notebookCode a = notebookCode b
  ∧ jupyterSessionRef a = jupyterSessionRef b
  ∧ jupyterBaseUrl a = jupyterBaseUrl b ∧ jupyterToken a = jupyterToken b.

(** A runtime in which the cell of the notebook raises. *)
Definition raisingRuntime (sent : list string) : Reply :=
  if bool_decide (length sent = 2%nat) then Raised "NameError" else Returned "".

(** * Properties *)

(** ** Cell keys are injective *)

Lemma pretty_N_char_not_colon (x : N) : pretty_N_char x ≠ colon.
Proof. unfold pretty_N_char. by repeat case_match. Qed.

Lemma pretty_N_go_colon_free (x : N) (s : string) :
  occursIn colon s = false → occursIn colon (pretty_N_go x s) = false.
Proof.
  revert s. induction (N.lt_wf_0 x) as [x _ IH]; intros s Hs.
  destruct (decide (x = 0)%N) as [->|Hx]; [done|].
  rewrite pretty_N_go_step by lia.
  apply IH; [apply N.div_lt; lia|]. simpl.
  rewrite Hs, orb_false_r. apply bool_decide_eq_false.
  intros Heq. by apply (pretty_N_char_not_colon (x `mod` 10)%N).
Qed.

Lemma pretty_N_colon_free (x : N) : occursIn colon (pretty x) = false.
Proof.
  unfold pretty, pretty_N. case_decide; [done|].
  by apply pretty_N_go_colon_free.
Qed.

Lemma pretty_Z_colon_free (z : Z) : occursIn colon (pretty z) = false.
Proof.
  destruct z as [|p|p]; [done| |].
  - apply (pretty_N_colon_free (Npos p)).
  - change (pretty (Zneg p)) with ("-" +:+ pretty (Npos p)). simpl.
    apply (pretty_N_colon_free (Npos p)).
Qed.

Lemma split_at_colon (s1 s2 t1 t2 : string) :
  occursIn colon s1 = false → occursIn colon s2 = false →
  s1 +:+ ":" +:+ t1 = s2 +:+ ":" +:+ t2 → s1 = s2 ∧ t1 = t2.
Proof.
  revert s2. induction s1 as [|c s1 IH]; intros [|d s2] H1 H2 Heq; simpl in *.
  - by simplify_eq.
  - injection Heq as <- _. apply orb_false_iff in H2 as [H2 _].
    by apply bool_decide_eq_false in H2.
  - injection Heq as -> _. apply orb_false_iff in H1 as [H1 _].
    by apply bool_decide_eq_false in H1.
  - injection Heq as -> Heq.
    apply orb_false_iff in H1 as [_ H1]. apply orb_false_iff in H2 as [_ H2].
    destruct (IH s2 H1 H2 Heq) as [-> ->]. done.
Qed.

Lemma cellKey_inj (c1 r1 c2 r2 : Z) :
  cellKey c1 r1 = cellKey c2 r2 → c1 = c2 ∧ r1 = r2.
Proof.
  unfold cellKey. intros Heq.
  apply split_at_colon in Heq as [Hc Hr]; auto using pretty_Z_colon_free.
  split; by apply (inj pretty).
Qed.

(** ** What the occupancy map records *)

Lemma lookup_insert_cellKey (m : gmap string Gate) (g : Gate) (c r col row : Z) :
  is_Some (<[cellKey c r := g]> m !! cellKey col row)
  ↔ (c = col ∧ r = row) ∨ is_Some (m !! cellKey col row).
Proof.
  rewrite lookup_insert. case_decide as Hk.
  - apply cellKey_inj in Hk as [-> ->]. split; eauto.
  - split; [auto|]. intros [[-> ->]|?]; [done|auto].
Qed.

Lemma occupy_lookup (m : gmap string Gate) (g : Gate) (col row : Z) :
  is_Some (occupy m g !! cellKey col row)
  ↔ is_Some (m !! cellKey col row) ∨ occupies g col row.
Proof.
  unfold occupy, occupies.
  destruct (isControlled (type g)) eqn:Hc, (isSwap (type g)) eqn:Hs,
    (control g) as [c|] eqn:Hctl, (pair g) as [p|] eqn:Hp;
    rewrite ?lookup_insert_cellKey; intuition (simplify_eq; auto).
Qed.

Lemma occupancy_from_lookup (gs : list Gate) (m : gmap string Gate) (col row : Z) :
  is_Some (fold_left occupy gs m !! cellKey col row)
  ↔ is_Some (m !! cellKey col row) ∨ occupied gs col row.
Proof.
  unfold occupied. revert m. induction gs as [|g gs IH]; intros m; simpl.
  - split; [auto|]. intros [?|(g & Hg & _)]; [done|]. by apply elem_of_nil in Hg.
  - rewrite IH, occupy_lookup. setoid_rewrite elem_of_cons. naive_solver.
Qed.

Lemma cellHasGate_true (gs : list Gate) (row col : Z) :
  cellHasGate gs row col = true ↔ occupied gs col row.
Proof.
  unfold cellHasGate, occupancy.
  pose proof (occupancy_from_lookup gs ∅ col row) as Hocc.
  rewrite lookup_empty in Hocc.
  destruct (fold_left occupy gs ∅ !! cellKey col row) as [g|] eqn:Hl.
  - split; [|done]. intros _.
    destruct Hocc as [Hocc _]. destruct Hocc as [[? [=]]|?]; eauto.
  - split; [done|]. intros Ho. destruct Hocc as [_ Hocc].
    destruct Hocc as [? [=]]. by right.
Qed.

Lemma cellHasGate_false (gs : list Gate) (row col : Z) :
  cellHasGate gs row col = false ↔ ¬ occupied gs col row.
Proof.
  rewrite <- cellHasGate_true. destruct (cellHasGate gs row col); naive_solver.
Qed.

(** ** Placing a gate *)

Lemma placeGate_cases (st : State) (newGate : Gate) :
  (rejected (gates st) newGate
   ∧ value (placeGate st newGate) = false
   ∧ after (placeGate st newGate) = st)
  ∨ (¬ rejected (gates st) newGate
     ∧ value (placeGate st newGate) = true
     ∧ after (placeGate st newGate) = setGates (fun prev => prev ++ [newGate]) st
     ∧ gates (after (placeGate st newGate)) = gates st ++ [newGate]).
Proof.
  unfold placeGate, rejected.
  destruct (cellHasGate (gates st) (target newGate) (column newGate)) eqn:Ht.
  { left. apply cellHasGate_true in Ht. auto. }
  apply cellHasGate_false in Ht.
  destruct (isControlled (type newGate)) eqn:Hc.
  - destruct (control newGate) as [c|] eqn:Hctl; [|left; auto 10].
    destruct (cellHasGate (gates st) c (column newGate)) eqn:Hcc.
    { left. apply cellHasGate_true in Hcc. eauto 10. }
    apply cellHasGate_false in Hcc.
    destruct (isSwap (type newGate)) eqn:Hs.
    + destruct (pair newGate) as [p|] eqn:Hp; [|left; auto 10].
      destruct (cellHasGate (gates st) p (column newGate)) eqn:Hpc.
      { left. apply cellHasGate_true in Hpc. eauto 10. }
      apply cellHasGate_false in Hpc.
      right. split_and!; try done.
      intros [?|[(_ & [?|(? & ? & ?)])|(_ & [?|(? & ? & ?)])]]; simplify_eq; done.
    + right. split_and!; try done.
      intros [?|[(_ & [?|(? & ? & ?)])|(? & _)]]; simplify_eq; done.
  - destruct (isSwap (type newGate)) eqn:Hs.
    + destruct (pair newGate) as [p|] eqn:Hp; [|left; auto 10].
      destruct (cellHasGate (gates st) p (column newGate)) eqn:Hpc.
      { left. apply cellHasGate_true in Hpc. eauto 10. }
      apply cellHasGate_false in Hpc.
      right. split_and!; try done.
      intros [?|[(? & _)|(_ & [?|(? & ? & ?)])]]; simplify_eq; done.
    + right. split_and!; try done.
      intros [?|[(? & _)|(? & _)]]; simplify_eq; done.
Qed.

(** C4. [placeGate] turns a gate down, returning false and leaving the state
    as it was, exactly when its target cell is occupied, or it is a CNOT/CZ
    whose control is absent or on an occupied cell, or a SWAP whose pair is
    absent or on an occupied cell; every other gate is accepted: the call
    returns true and the gate is appended at the end of the list.  Occupied
    means that some gate of the list has the cell as its target, as its
    control (CNOT/CZ) or as its pair (SWAP). *)
Theorem placeGate_rejects_or_appends (st : State) (newGate : Gate) :
  (∀ row col, cellHasGate (gates st) row col = true ↔ occupied (gates st) col row)
  ∧ ((rejected (gates st) newGate
      ∧ value (placeGate st newGate) = false
      ∧ after (placeGate st newGate) = st
      ∧ gates (after (placeGate st newGate)) = gates st)
     ∨ (¬ rejected (gates st) newGate
        ∧ value (placeGate st newGate) = true
        ∧ gates (after (placeGate st newGate)) = gates st ++ [newGate])).
Proof.
  split; [intros row col; apply cellHasGate_true|].
  destruct (placeGate_cases st newGate) as [(Hrej & Hv & Ha)|(Hacc & Hv & _ & Hg)].
  - left. by rewrite Ha.
  - right. done.
Qed.

Example placeGate_on_control_cell :
  placeGate boardWithCnot (mkGate "X_b2" GateType.X 0 0 None None None)
  = mkOutcome false boardWithCnot ["Cell already occupied."].
Proof. reflexivity. Qed.

Example placeGate_same_column_free_row :
  gates (after (placeGate boardWithCnot h_2)) = [cnot_0_1; h_2].
Proof. reflexivity. Qed.

(** ** Undo *)

Lemma slice_0_m1_app {A : Type} (l : list A) (x : A) : slice_0_m1 (l ++ [x]) = l.
Proof.
  unfold slice_0_m1. rewrite length_app. simpl.
  replace (length l + 1 - 1)%nat with (length l) by lia.
  by rewrite take_app_length.
Qed.

(** C8. Undoing right after [placeGate] accepted a gate gives back the state
    from before the placement, hence the same gate list; and undo on the
    empty gate list leaves it empty. *)
Theorem undo_after_placeGate (st : State) (g : Gate) :
  (value (placeGate st g) = true →
   undo (after (placeGate st g)) = st
   ∧ gates (undo (after (placeGate st g))) = gates st)
  ∧ (gates st = [] → gates (undo st) = []).
Proof.
  split.
  - intros Hacc.
    destruct (placeGate_cases st g) as [(_ & Hv & _)|(_ & _ & Ha & _)];
      [congruence|].
    rewrite Ha. assert (undo (setGates (fun prev => prev ++ [g]) st) = st) as ->; [|done].
    destruct st. unfold undo, setGates. simpl. f_equal. apply slice_0_m1_app.
  - intros Hnil. unfold undo. simpl. by rewrite Hnil.
Qed.

Lemma undo_after_placeGate_witness :
  value (placeGate emptyBoard cnot_0_1) = true
  ∧ gates emptyBoard = []
  ∧ undo (after (placeGate emptyBoard cnot_0_1)) = emptyBoard
  ∧ gates (undo emptyBoard) = [].
Proof.
  destruct (undo_after_placeGate emptyBoard cnot_0_1) as [Hround Hempty].
  split; [reflexivity|]. split; [reflexivity|].
  split; [apply Hround; reflexivity | apply Hempty; reflexivity].
Defined.

(** ** Removing the gate at a cell *)

Lemma keepAt_occupies (row col : Z) (g : Gate) :
  keepAt row col g = true ↔ ¬ occupies g col row.
Proof.
  unfold keepAt, occupies.
  destruct (Z.eqb_spec (column g) col) as [Hcol|Hcol]; simpl; [|naive_solver].
  destruct (Z.eqb_spec (target g) row) as [Ht|Ht]; [naive_solver|].
  destruct (isControlled (type g)), (isSwap (type g)); simpl;
    repeat case_bool_decide; naive_solver.
Qed.

Lemma filter_keepAt (row col : Z) (gs : list Gate) :
  List.filter (keepAt row col) gs = filter (fun g => ¬ occupies g col row) gs.
Proof.
  induction gs as [|g gs IH]; [done|]. simpl. rewrite filter_cons, IH.
  destruct (keepAt row col g) eqn:Hk; case_decide as Ho; try done.
  - by apply keepAt_occupies in Hk.
  - apply keepAt_occupies in Ho. congruence.
Qed.

(** C9. [removeGateAt(row, col)] removes exactly the gates that occupy the
    cell: those in column [col] whose target is [row], or (CNOT/CZ) whose
    control is [row], or (SWAP) whose pair is [row].  The other gates stay,
    in their order, and the two sizes are untouched. *)
Theorem removeGateAt_removes_occupants (st : State) (row col : Z) :
  gates (removeGateAt st row col)
    = filter (fun g => ¬ occupies g col row) (gates st)
  ∧ (∀ g, g ∈ gates (removeGateAt st row col)
          ↔ g ∈ gates st ∧ ¬ occupies g col row)
  ∧ gates (removeGateAt st row col) `sublist_of` gates st
  ∧ numQubits (removeGateAt st row col) = numQubits st
  ∧ numColumns (removeGateAt st row col) = numColumns st.
Proof.
  unfold removeGateAt. simpl. rewrite filter_keepAt. split_and!; try done.
  - intros g. rewrite list_elem_of_filter. tauto.
  - apply sublist_filter.
Qed.

(** ** Numbers that are integers *)

Lemma toInteger_Qeq (q : Q) (z : Z) :
  JS.toInteger (JS.Finite q) = Some z → (q == inject_Z z)%Q.
Proof.
  unfold JS.toInteger. destruct (Z.eqb_spec (Qnum q mod Z.pos (Qden q)) 0) as [Hm|];
    [|done].
  intros [= <-]. unfold Qeq, inject_Z. simpl.
  apply Z.div_exact in Hm; lia.
Qed.

Lemma toInteger_ofZ (z : Z) : JS.toInteger (JS.ofZ z) = Some z.
Proof.
  unfold JS.toInteger, JS.ofZ, inject_Z. simpl.
  by rewrite Z.mod_1_r, Z.div_1_r.
Qed.

Lemma toInteger_Finite (x : JS.number) (z : Z) :
  JS.toInteger x = Some z → ∃ q, x = JS.Finite q ∧ (q == inject_Z z)%Q.
Proof.
  destruct x as [| |q]; try done. intros Hq. eauto using toInteger_Qeq.
Qed.

Lemma Qcompare_inject_Z (a b : Z) : (inject_Z a ?= inject_Z b)%Q = (a ?= b)%Z.
Proof. unfold Qcompare, inject_Z. simpl. by rewrite !Z.mul_1_r. Qed.

Lemma lt_integer (x : JS.number) (z b : Z) :
  JS.toInteger x = Some z → JS.lt x (JS.ofZ b) = bool_decide (z < b).
Proof.
  intros (q & -> & Hq)%toInteger_Finite. unfold JS.ofZ, JS.lt.
  rewrite Hq, Qcompare_inject_Z.
  destruct (Z.compare_spec z b); case_bool_decide; done || lia.
Qed.

Lemma ge_integer (x n : JS.number) (z : Z) :
  JS.toInteger x = Some z → JS.ge x n = JS.ge (JS.ofZ z) n.
Proof.
  intros (q & -> & Hq)%toInteger_Finite. unfold JS.ofZ.
  destruct n as [|[]|p]; try done. simpl. by rewrite Hq.
Qed.

Lemma strictEq_integer (x : JS.number) (z b : Z) :
  JS.toInteger x = Some z → JS.strictEq x (JS.ofZ b) = bool_decide (z = b).
Proof.
  intros (q & -> & Hq)%toInteger_Finite. unfold JS.ofZ, JS.strictEq.
  case_bool_decide as Hzb.
  - apply Qeq_bool_iff. by rewrite Hq, Hzb.
  - apply not_true_is_false. intros Heq%Qeq_bool_iff.
    rewrite Hq in Heq. apply Hzb. unfold Qeq, inject_Z in Heq. simpl in Heq. lia.
Qed.

Lemma invalidQubit_badQubit (st : State) (row : Z) (q : JS.number) :
  invalidQubit st row q = true ↔ badQubit (numQubits st) row q.
Proof.
  unfold invalidQubit, badQubit, JS.isInteger.
  destruct (JS.toInteger q) as [z|] eqn:Hq; [|done]. simpl.
  rewrite (lt_integer q z 0 Hq), (ge_integer q _ z Hq), (strictEq_integer q z row Hq).
  rewrite !orb_true_iff, !bool_decide_eq_true. tauto.
Qed.

(** ** Dropping with an invalid answer *)

(** C5. When the prompt of a rotation or two-qubit gate is cancelled, or the
    angle entered does not parse to a finite number, or the other qubit
    entered is not an integer, is below 0, is at or above [numQubits] or is
    the target row, [handleDrop] adds no gate: the state, and so the gate
    list, is what it was. *)
Theorem handleDrop_invalid_answer (Number : string -> JS.number) (st : State)
    (data : string) (type : GateType) (row col : Z) (answer : option string)
    (rnd : string) :
  typeOfName data = Some type →
  invalidAnswer Number st type row answer →
  after (handleDrop Number st data row col answer rnd) = st
  ∧ gates (after (handleDrop Number st data row col answer rnd)) = gates st.
Proof.
  intros Hty Hbad.
  assert (after (handleDrop Number st data row col answer rnd) = st) as ->; [|done].
  unfold handleDrop. rewrite Hty.
  destruct Hbad as [(Hrot & Hans)|(Htwo & Hans)].
  - assert (isSingle type = false) as -> by by destruct type.
    rewrite Hrot. destruct Hans as [->|(input & -> & Hfin)]; [done|].
    by rewrite Hfin.
  - assert (isSingle type = false) as -> by by destruct Htwo, type.
    assert (isRotation type = false) as -> by by destruct Htwo, type.
    assert (∀ input, badQubit (numQubits st) row (Number input) →
                     invalidQubit st row (Number input) = true) as Hinv.
    { intros input. apply invalidQubit_badQubit. }
    destruct (isControlled type).
    + destruct Hans as [->|(input & -> & Hq)]; [done|]. by rewrite Hinv.
    + destruct Htwo as [? | ->]; [done|].
      destruct Hans as [->|(input & -> & Hq)]; [done|]. by rewrite Hinv.
Qed.

Lemma handleDrop_invalid_answer_witness :
  typeOfName "CNOT" = Some GateType.CNOT
  ∧ invalidAnswer integerLiteral emptyBoard GateType.CNOT 1 (Some "1")
  ∧ after (handleDrop integerLiteral emptyBoard "CNOT" 1 0 (Some "1") "a1")
    = emptyBoard.
Proof.
  assert (invalidAnswer integerLiteral emptyBoard GateType.CNOT 1 (Some "1"))
    as Hbad.
  { right. split; [by left|]. right. exists "1". split; [reflexivity|].
    right. right. reflexivity. }
  split; [reflexivity|]. split; [exact Hbad|].
  apply (handleDrop_invalid_answer integerLiteral emptyBoard "CNOT"
           GateType.CNOT 1 0 (Some "1") "a1"); [reflexivity | exact Hbad].
Defined.

(** ** The grid invariant *)

Lemma disjointCells_sym (g1 g2 : Gate) : disjointCells g1 g2 → disjointCells g2 g1.
Proof. unfold disjointCells. naive_solver. Qed.

Lemma StronglySorted_sublist {A : Type} (R : relation A) (l' l : list A) :
  l' `sublist_of` l → StronglySorted R l → StronglySorted R l'.
Proof.
  induction 1 as [|x l1 l2 Hsub IH|x l1 l2 Hsub IH]; [done|..];
    rewrite !StronglySorted_cons; intros [Hx Hl2]; [|by auto].
  split; [|by auto]. rewrite Forall_forall in *.
  intros y Hy. apply Hx. by eapply elem_of_sublist.
Qed.

Lemma StronglySorted_lookup {A : Type} (R : relation A) (l : list A) (i j : nat) (x y : A) :
  StronglySorted R l → (i < j)%nat → l !! i = Some x → l !! j = Some y → R x y.
Proof.
  intros Hl. revert i j. induction Hl as [|a l Hl IH Ha]; intros i j Hij Hi Hj; [done|].
  destruct j as [|j]; [lia|]. simpl in Hj. destruct i as [|i]; simpl in Hi.
  - simplify_eq. rewrite Forall_forall in Ha. apply Ha.
    by eapply list_elem_of_lookup_2.
  - apply (IH i j); [lia|done..].
Qed.

Lemma accepted_disjoint (gs : list Gate) (g g' : Gate) :
  ¬ rejected gs g → g' ∈ gs → disjointCells g' g.
Proof.
  intros Hacc Hin col row Hg' (Hcol & Hrow). apply Hacc. unfold rejected.
  assert (occupied gs col row) as Hocc by (exists g'; done). subst col.
  destruct Hrow as [<-|[(Hc & Hctl)|(Hs & Hp)]]; [by left|..]; eauto 10.
Qed.

(** The gate lists in which gates pairwise share no cell and keep their own
    endpoints apart. *)
Lemma wellPlaced_snoc (gs : list Gate) (g : Gate) :
  StronglySorted disjointCells gs ∧ Forall endpointsApart gs →
  ¬ rejected gs g → endpointsApart g →
  StronglySorted disjointCells (gs ++ [g]) ∧ Forall endpointsApart (gs ++ [g]).
Proof.
  intros [Hgs Hends] Hacc Hg. split.
  - apply StronglySorted_app_2; [|done|repeat constructor].
    intros g1 g2 Hg1 ->%list_elem_of_singleton. by eapply accepted_disjoint.
  - apply Forall_app. auto.
Qed.

Lemma wellPlaced_sublist (gs' gs : list Gate) :
  gs' `sublist_of` gs →
  StronglySorted disjointCells gs ∧ Forall endpointsApart gs →
  StronglySorted disjointCells gs' ∧ Forall endpointsApart gs'.
Proof.
  intros Hsub [Hgs Hends]. split; [by eapply StronglySorted_sublist|].
  rewrite Forall_forall in *. intros g Hg. apply Hends. by eapply elem_of_sublist.
Qed.

Lemma wellPlaced_placeGate (st : State) (g : Gate) :
  StronglySorted disjointCells (gates st) ∧ Forall endpointsApart (gates st) →
  endpointsApart g →
  StronglySorted disjointCells (gates (after (placeGate st g)))
  ∧ Forall endpointsApart (gates (after (placeGate st g))).
Proof.
  intros Hst Hg.
  destruct (placeGate_cases st g) as [(_ & _ & ->)|(Hacc & _ & _ & ->)];
    [done|]. by apply wellPlaced_snoc.
Qed.

Lemma valid_other_qubit (st : State) (row : Z) (q : JS.number) :
  invalidQubit st row q = false → JS.toInteger q ≠ Some row.
Proof.
  intros Hinv Hq. apply not_true_iff_false in Hinv. apply Hinv.
  apply invalidQubit_badQubit. unfold badQubit. rewrite Hq. auto.
Qed.

Lemma wellPlaced_handleDrop (Number : string -> JS.number) (st : State)
    (data : string) (row col : Z) (answer : option string) (rnd : string) :
  StronglySorted disjointCells (gates st) ∧ Forall endpointsApart (gates st) →
  StronglySorted disjointCells
    (gates (after (handleDrop Number st data row col answer rnd)))
  ∧ Forall endpointsApart
      (gates (after (handleDrop Number st data row col answer rnd))).
Proof.
  intros Hst. unfold handleDrop.
  destruct (typeOfName data) as [type|]; [|done].
  destruct (isSingle type).
  { simpl. by apply wellPlaced_placeGate. }
  destruct (isRotation type).
  { destruct answer as [input|]; [|done].
    destruct (JS.isFinite (Number input)); [|done].
    simpl. by apply wellPlaced_placeGate. }
  destruct (isControlled type).
  { destruct answer as [input|]; [|done].
    destruct (invalidQubit st row (Number input)) eqn:Hinv; [done|].
    simpl. apply wellPlaced_placeGate; [done|].
    split; simpl; [|done]. by eapply valid_other_qubit. }
  destruct (isSwap type); [|done].
  destruct answer as [input|]; [|done].
  destruct (invalidQubit st row (Number input)) eqn:Hinv; [done|].
  simpl. apply wellPlaced_placeGate; [done|].
  split; simpl; [done|]. by eapply valid_other_qubit.
Qed.

Lemma wellPlaced_edit (Number : string -> JS.number) (st st' : State) :
  edit Number st st' →
  StronglySorted disjointCells (gates st) ∧ Forall endpointsApart (gates st) →
  StronglySorted disjointCells (gates st') ∧ Forall endpointsApart (gates st').
Proof.
  intros Hedit Hst. destruct Hedit as [st data row col answer rnd|st row col|st|st].
  - by apply wellPlaced_handleDrop.
  - eapply wellPlaced_sublist; [|done].
    unfold removeGateAt. simpl. rewrite filter_keepAt. apply sublist_filter.
  - eapply wellPlaced_sublist; [|done]. apply sublist_take.
  - simpl. split; constructor.
Qed.

(** C6. In every gate list an editing session reaches from the empty list by
    drops, removals, undos and clears, two gates at different positions of
    the list never occupy the same cell (target cell, control cell of a
    CNOT/CZ, pair cell of a SWAP), and no gate has its control or its pair on
    its own target. *)
Theorem reachable_wellPlaced (Number : string -> JS.number) (st : State) :
  reachable Number st →
  (∀ i j g1 g2, i ≠ j → gates st !! i = Some g1 → gates st !! j = Some g2 →
                disjointCells g1 g2)
  ∧ (∀ g, g ∈ gates st → endpointsApart g).
Proof.
  intros Hreach.
  assert (StronglySorted disjointCells (gates st) ∧ Forall endpointsApart (gates st))
    as [Hcells Hends].
  { induction Hreach as [st Hnil|st st' _ IH Hedit].
    - rewrite Hnil. split; constructor.
    - by eapply wellPlaced_edit. }
  split; [|by apply Forall_forall].
  intros i j g1 g2 Hij Hi Hj.
  destruct (decide (i < j)%nat).
  - by eapply (StronglySorted_lookup _ _ i j).
  - apply disjointCells_sym. eapply (StronglySorted_lookup _ _ j i); [done|lia|done..].
Qed.

Lemma reachable_wellPlaced_witness :
  reachable integerLiteral boardWithCnot
  ∧ (∀ i j g1 g2, i ≠ j → gates boardWithCnot !! i = Some g1 →
                  gates boardWithCnot !! j = Some g2 → disjointCells g1 g2)
  ∧ (∀ g, g ∈ gates boardWithCnot → endpointsApart g).
Proof.
  assert (reachable integerLiteral boardWithCnot) as Hreach.
  { apply (reachable_edit integerLiteral emptyBoard).
    - apply reachable_empty. reflexivity.
    - apply edit_drop. }
  split; [exact Hreach|].
  exact (reachable_wellPlaced integerLiteral boardWithCnot Hreach).
Defined.

(** ** The size inputs *)

Lemma max_ofZ (lo hi : Z) :
  lo ≤ hi → JS.max (JS.ofZ lo) (JS.ofZ hi) = JS.ofZ hi.
Proof.
  intros Hlohi. unfold JS.max, JS.ofZ, JS.lt. rewrite Qcompare_inject_Z.
  destruct (Z.compare_spec lo hi); by (done || lia || subst).
Qed.

Lemma max_min_clampedTo (lo hi : Z) (x : JS.number) :
  lo ≤ hi → x ≠ JS.NaN →
  clampedTo lo hi x (JS.max (JS.ofZ lo) (JS.min (JS.ofZ hi) x)).
Proof.
  intros Hlohi Hx. pose proof (max_ofZ lo hi Hlohi) as Hmax.
  destruct x as [|[]|q]; [done|reflexivity|exact Hmax|].
  assert (inject_Z lo <= inject_Z hi)%Q as HQ by by rewrite <- Zle_Qle.
  unfold clampedTo.
  destruct (Qlt_le_dec q (inject_Z hi)) as [Hlt|Hge].
  - assert (JS.min (JS.ofZ hi) (JS.Finite q) = JS.Finite q) as ->.
    { unfold JS.min, JS.ofZ, JS.lt.
      destruct (Qcompare_spec q (inject_Z hi)); done || lra. }
    unfold JS.max, JS.ofZ, JS.lt.
    destruct (Qcompare_spec (inject_Z lo) q);
      split_and!; intros; simpl; try done; lra.
  - assert (JS.min (JS.ofZ hi) (JS.Finite q) = JS.ofZ hi) as ->.
    { unfold JS.min, JS.ofZ, JS.lt.
      destruct (Qcompare_spec q (inject_Z hi)); done || lra. }
    rewrite Hmax. split_and!; intros; simpl; try done; lra.
Qed.

(** C10. Whatever text [v] the Qubits input hands over, as long as it reads
    as a number (a number input only yields numeric text or the empty text,
    which reads as 0), the handler stores [Number(v)] clamped into 1..16 in
    [numQubits]; the Columns input does the same with 1..48 and
    [numColumns]. *)
Theorem onChange_clamps (Number : string -> JS.number) (st : State) (v : string) :
  Number v ≠ JS.NaN →
  clampedTo 1 16 (Number v) (numQubits (onChangeQubits Number st v))
  ∧ clampedTo 1 48 (Number v) (numColumns (onChangeColumns Number st v)).
Proof.
  intros Hv. split; simpl; by apply max_min_clampedTo.
Qed.

Lemma onChange_clamps_witness :
  integerLiteral "20" ≠ JS.NaN
  ∧ numQubits (onChangeQubits integerLiteral emptyBoard "20") = JS.ofZ 16
  ∧ JS.same (numColumns (onChangeColumns integerLiteral emptyBoard "20"))
      (JS.ofZ 20).
Proof.
  assert (integerLiteral "20" ≠ JS.NaN) as Hv by discriminate.
  destruct (onChange_clamps integerLiteral emptyBoard "20" Hv) as [Hq Hc].
  split; [exact Hv|]. split.
  - destruct Hq as (_ & Hhi & _). apply Hhi. reflexivity.
  - destruct Hc as (_ & _ & Hin). apply Hin. split; discriminate.
Defined.

(** A text that reads as NaN would be stored as NaN. *)
Lemma onChangeQubits_NaN (Number : string -> JS.number) (st : State) (v : string) :
  Number v = JS.NaN → numQubits (onChangeQubits Number st v) = JS.NaN.
Proof. intros Hv. simpl. by rewrite Hv. Qed.

(** ** Jupyter sessions *)

Lemma ensureJupyterSession_stored (st : State) (srv : Service) (s : Session) (k : Kernel) :
  jupyterSessionRef st = Some s → kernel s = Some k →
  ensureJupyterSession st srv = (inl s, st, []).
Proof. intros Hs Hk. unfold ensureJupyterSession. by rewrite Hs, Hk. Qed.

Lemma ensureJupyterSession_result (st st' : State) (srv : Service) (s : Session)
    (calls : list Call) :
  ensureJupyterSession st srv = (inl s, st', calls) →
  jupyterSessionRef st' = Some s.
Proof.
  unfold ensureJupyterSession.
  destruct (jupyterSessionRef st) as [current|] eqn:Hcur.
  - destruct (kernel current) eqn:Hk.
    + intros [= <- <- _]. done.
    + destruct (startNewResult srv); intros [= <- <- _]; done.
  - destruct (startNewResult srv); intros [= <- <- _]; done.
Qed.

(** C7. When a session with a live kernel is stored, [ensureJupyterSession]
    returns that very session, starts nothing and leaves the state alone;
    whenever a call returned a session with a live kernel, the next call
    returns the same session again without calling the service; and
    [runOnJupyter] then sends exactly one execute request to the kernel of the
    stored session, whose code is the current [python] text as it is. *)
Theorem session_reuse (numberToString : JS.number -> string) (st : State)
    (srv : Service) (s : Session) (k : Kernel) :
  jupyterSessionRef st = Some s → kernel s = Some k →
  ensureJupyterSession st srv = (inl s, st, [])
  ∧ (∀ st0 srv0 srv1 s1 st1 calls,
       ensureJupyterSession st0 srv0 = (inl s1, st1, calls) →
       is_Some (kernel s1) →
       ensureJupyterSession st1 srv1 = (inl s1, st1, []))
  ∧ (runOnJupyter numberToString st srv).2 = [RequestExecute k (python st) true].
Proof.
  intros Hs Hk. split; [by eapply ensureJupyterSession_stored|]. split.
  - intros st0 srv0 srv1 s1 st1 calls Hfirst [k1 Hk1].
    apply ensureJupyterSession_result in Hfirst.
    by eapply ensureJupyterSession_stored.
  - unfold runOnJupyter.
    set (st2 := setJupyterOut _ (setJupyterBusy true _)).
    assert (jupyterSessionRef st2 = Some s) as Hs2.
    { unfold st2. simpl. case_bool_decide; done. }
    rewrite (ensureJupyterSession_stored st2 srv s k Hs2 Hk), Hk.
    by destruct (doneError srv).
Qed.

Lemma session_reuse_witness :
  jupyterSessionRef connectedBoard = Some liveSession
  ∧ kernel liveSession = Some (mkKernel "python3")
  ∧ ensureJupyterSession connectedBoard quietService
    = (inl liveSession, connectedBoard, [])
  ∧ (runOnJupyter numberText connectedBoard quietService).2
    = [RequestExecute (mkKernel "python3") "print(1)" true].
Proof.
  destruct (session_reuse numberText connectedBoard quietService liveSession
              (mkKernel "python3") eq_refl eq_refl) as (Hens & _ & Hrun).
  split; [reflexivity|]. split; [reflexivity|]. split; [exact Hens|exact Hrun].
Defined.

(** With no text yet, the request still carries the text of the current
    render, which is empty; the generated code only shows in the next
    state. *)
Example runOnJupyter_without_text :
  let st := setSessionRef (Some liveSession) emptyBoard in
  (runOnJupyter numberText st quietService).2
    = [RequestExecute (mkKernel "python3") "" true]
  ∧ python (runOnJupyter numberText st quietService).1
    = python (generatePython numberText st).
Proof. split; reflexivity. Qed.

(** ** Sorting *)

Section sorting.
Context {A : Type} (cmp : A -> A -> Z) (R : relation A).
Hypothesis cmp_R : ∀ a b, cmp a b ≤ 0 ↔ R a b.
Hypothesis R_total : ∀ a b, R a b ∨ R b a.
Hypothesis R_trans : ∀ a b c, R a b → R b c → R a c.

Lemma insertBy_Permutation (x : A) (l : list A) : insertBy cmp x l ≡ₚ x :: l.
Proof.
  induction l as [|y l IH]; [done|]. simpl.
  destruct (cmp x y <=? 0); [done|]. rewrite IH. apply Permutation_swap.
Qed.

Lemma sortBy_Permutation (l : list A) : sortBy cmp l ≡ₚ l.
Proof.
  induction l as [|x l IH]; [done|]. simpl.
  by rewrite insertBy_Permutation, IH.
Qed.

Lemma insertBy_StronglySorted (x : A) (l : list A) :
  StronglySorted R l → StronglySorted R (insertBy cmp x l).
Proof.
  induction 1 as [|y l Hl IH Hy]; simpl; [repeat constructor|].
  destruct (Z.leb_spec (cmp x y) 0) as [Hle|Hgt].
  - apply cmp_R in Hle. constructor; [by constructor|].
    constructor; [done|]. eapply Forall_impl; [exact Hy|]. eauto.
  - assert (R y x) as Hyx.
    { destruct (R_total x y) as [Hxy%cmp_R|?]; [lia|done]. }
    constructor; [done|]. rewrite insertBy_Permutation. by constructor.
Qed.

Lemma sortBy_StronglySorted (l : list A) : StronglySorted R (sortBy cmp l).
Proof.
  induction l as [|x l IH]; [constructor|]. simpl.
  by apply insertBy_StronglySorted.
Qed.
End sorting.

Lemma byColumnThenTarget_le (a b : Gate) :
  byColumnThenTarget a b ≤ 0 ↔ columnThenTarget a b.
Proof.
  unfold byColumnThenTarget, columnThenTarget.
  destruct (Z.eqb_spec (column a - column b) 0); lia.
Qed.

Lemma sorted_gates (gs : list Gate) :
  sortBy byColumnThenTarget gs ≡ₚ gs
  ∧ StronglySorted columnThenTarget (sortBy byColumnThenTarget gs).
Proof.
  split; [apply sortBy_Permutation|].
  apply sortBy_StronglySorted.
  - apply byColumnThenTarget_le.
  - unfold columnThenTarget. intros a b. lia.
  - unfold columnThenTarget. intros a b c. lia.
Qed.

Lemma sorted_targets (qs : list Z) :
  sortBy Z.sub qs ≡ₚ qs ∧ StronglySorted Z.le (sortBy Z.sub qs).
Proof.
  split; [apply sortBy_Permutation|].
  apply sortBy_StronglySorted; intros; lia.
Qed.

(** ** Sets of targets *)

Lemma newSet_from (xs s : list Z) :
  NoDup s →
  let s' := fold_left (fun s x => if bool_decide (x ∈ s) then s else s ++ [x]) xs s in
  NoDup s' ∧ ∀ x, x ∈ s' ↔ x ∈ s ∨ x ∈ xs.
Proof.
  revert s. induction xs as [|y xs IH]; intros s Hs; simpl.
  - split; [done|]. intros x. rewrite elem_of_nil. tauto.
  - case_bool_decide as Hy.
    + destruct (IH s Hs) as [Hnd Hin]. split; [done|].
      intros x. rewrite Hin, elem_of_cons. naive_solver.
    + destruct (IH (s ++ [y])) as [Hnd Hin].
      { apply NoDup_app. split_and!; [done| |apply NoDup_singleton].
        intros x Hx ->%list_elem_of_singleton. done. }
      split; [done|]. intros x.
      rewrite Hin, elem_of_app, list_elem_of_singleton, elem_of_cons. tauto.
Qed.

Lemma newSet_spec (xs : list Z) :
  NoDup (newSet xs) ∧ ∀ x, x ∈ newSet xs ↔ x ∈ xs.
Proof.
  destruct (newSet_from xs [] (NoDup_nil_2)) as [Hnd Hin]. split; [done|].
  intros x. unfold newSet. rewrite Hin, elem_of_nil. tauto.
Qed.

Lemma StronglySorted_le_lt (l : list Z) :
  StronglySorted Z.le l → NoDup l → StronglySorted Z.lt l.
Proof.
  induction 1 as [|x l Hl IH Hx]; intros Hnd; [constructor|].
  apply NoDup_cons in Hnd as [Hxl Hnd]. constructor; [auto|].
  rewrite Forall_forall in *. intros y Hy.
  assert (x ≠ y) by (by intros ->). specialize (Hx y Hy). lia.
Qed.

(** ** The shape of the generated lines *)

Lemma fold_left_emitGate (numberToString : JS.number -> string) (l : list Gate)
    (lines : list string) (cur : Z) :
  (fold_left (emitGate numberToString) l (lines, cur)).1
  = lines ++ emitted numberToString cur l.
Proof.
  revert lines cur. induction l as [|g l IH]; intros lines cur; simpl.
  - by rewrite app_nil_r.
  - case_bool_decide as Hcol; rewrite IH.
    + by rewrite <- !app_assoc.
    + by rewrite <- Hcol, <- !app_assoc.
Qed.

Lemma insert_snoc {A : Type} (h : list A) (x y : A) :
  <[length h := y]> (h ++ [x]) = h ++ [y].
Proof. induction h as [|z h IH]; simpl; [done|]. by rewrite IH. Qed.

Lemma readArray_snoc (h : store) (a : list Gate) :
  readArray (h ++ [a]) (length h) = a.
Proof. unfold readArray. by rewrite lookup_app_r, Nat.sub_diag by lia. Qed.

Lemma generateLines_shape (numberToString : JS.number -> string) (n : JS.number)
    (h : store) (gatesRef : nat) (gs : list Gate) :
  h !! gatesRef = Some gs →
  let sorted := sortBy byColumnThenTarget gs in
  generateLines numberToString n h gatesRef
  = (preamble numberToString n ++ emitted numberToString (-1) sorted
       ++ [measurementHeading] ++ measurementOf sorted ++ [simulate],
     h ++ [sorted]).
Proof.
  intros Hgs sorted. unfold generateLines, spread, sortInPlace.
  assert (readArray h gatesRef = gs) as -> by (unfold readArray; by rewrite Hgs).
  rewrite readArray_snoc, insert_snoc, readArray_snoc. fold sorted.
  destruct (fold_left (emitGate numberToString) sorted
              (preamble numberToString n, -1)) as [lines cur] eqn:Hfold.
  assert (lines = preamble numberToString n ++ emitted numberToString (-1) sorted)
    as ->.
  { by rewrite <- fold_left_emitGate, Hfold. }
  unfold measurementOf. f_equal.
  destruct (0 <? length _)%nat; by rewrite <- !app_assoc.
Qed.

(** ** Templates *)

Lemma append_assoc (s1 s2 s3 : string) : (s1 +:+ s2) +:+ s3 = s1 +:+ s2 +:+ s3.
Proof.
  induction s1 as [|c s1 IH]; [done|].
  change (String c ((s1 +:+ s2) +:+ s3) = String c (s1 +:+ s2 +:+ s3)).
  by f_equal.
Qed.

Lemma call_one (m x : string) :
  call m [x] = "qc." +:+ m +:+ "(" +:+ x +:+ ")" +:+ nl.
Proof. reflexivity. Qed.

Lemma call_two (m x y : string) :
  call m [x; y] = "qc." +:+ m +:+ "(" +:+ x +:+ ", " +:+ y +:+ ")" +:+ nl.
Proof.
  unfold call. change (String.concat ", " [x; y]) with (x +:+ ", " +:+ y).
  by rewrite !append_assoc.
Qed.

Lemma gateLines_template (numberToString : JS.number -> string) (g : Gate)
    (t : list string) :
  template numberToString g t → gateLines numberToString g = t.
Proof.
  unfold gateLines, angleText.
  destruct 1 as [g m Hm|g m Hm|g m c Hm Hc|g p Hty Hp|g Hty];
    rewrite ?call_one, ?call_two;
    destruct (type g); simplify_eq/=; rewrite ?Hc, ?Hp; reflexivity.
Qed.

Lemma emitted_sections (numberToString : JS.number -> string) (cur : Z)
    (l : list Gate) :
  ∃ sections,
    Forall2 (gateSection numberToString) l sections
    ∧ emitted numberToString cur l = concat sections.
Proof.
  revert cur. induction l as [|g l IH]; intros cur.
  - exists []. split; [constructor|done].
  - destruct (IH (column g)) as (sections & Hsec & Heq).
    set (comment := if bool_decide (column g ≠ cur)
                    then [columnComment (column g)] else []).
    exists ((comment ++ gateLines numberToString g) :: sections). split.
    + constructor; [|done]. exists comment. split.
      * unfold comment. case_bool_decide; auto.
      * intros t Ht. by rewrite (gateLines_template _ _ _ Ht).
    + simpl. fold comment. by rewrite Heq, <- app_assoc.
Qed.

(** C1. The generated lines are the preamble, then one section per gate in
    sorted order, then the measurement part.  The section of a gate holds at
    most the comment of its column and then exactly the lines of its
    template: [qc.h(t)] (x, y, z, s, t alike) for a single-qubit gate on
    target t, [qc.rx(a, t)] (ry, rz alike) with a the angle or 0 if there is
    none, [qc.cx(c, t)] and [qc.cz(c, t)] with control c, [qc.swap(t, p)]
    with pair p, and no line for a measurement. *)
Theorem generatePython_templates (numberToString : JS.number -> string) (st : State) :
  let sorted := sortBy byColumnThenTarget (gates st) in
  let lines := (generateLines numberToString (numQubits st) [gates st] 0%nat).1 in
  ∃ sections,
    sorted ≡ₚ gates st
    ∧ Forall2 (gateSection numberToString) sorted sections
    ∧ lines = preamble numberToString (numQubits st) ++ concat sections
              ++ [measurementHeading] ++ measurementOf sorted ++ [simulate]
    ∧ python (generatePython numberToString st) = join lines.
Proof.
  intros sorted lines. unfold lines.
  rewrite (generateLines_shape numberToString _ [gates st] 0%nat (gates st) eq_refl).
  fold sorted.
  destruct (emitted_sections numberToString (-1) sorted) as (sections & Hsec & Heq).
  exists sections. split; [apply sorted_gates|].
  split; [done|]. split; [by rewrite Heq|].
  unfold generatePython. simpl.
  by rewrite (generateLines_shape numberToString _ [gates st] 0%nat (gates st) eq_refl).
Qed.

Example generatePython_sampleBoard :
  python (generatePython numberText sampleBoard)
  = "# Auto-generated by Quantum Circuit Builder (React)
# Requires: qiskit, qiskit-aer
from qiskit import QuantumCircuit
from qiskit_aer import AerSimulator

n_qubits = 3
qc = QuantumCircuit(n_qubits, n_qubits)


# --- Column 0 ---
qc.cx(0, 1)

# --- Column 1 ---
qc.h(0)
qc.rx(2, 2)

# --- Column 2 ---

# --- Column 3 ---

# Measurement
qc.measure(0, 0)
qc.measure(2, 2)

# Simulate with AerSimulator
sim = AerSimulator()
result = sim.run(qc, shots=1024).result()
counts = result.get_counts()
print(counts)
".
Proof. vm_compute. reflexivity. Qed.

(** ** Measurements *)

Lemma elem_of_List_filter {A : Type} (f : A -> bool) (l : list A) (x : A) :
  x ∈ List.filter f l ↔ x ∈ l ∧ f x = true.
Proof. rewrite !list_elem_of_In. apply filter_In. Qed.

Lemma isMeasure_type (g : Gate) : isMeasure g = true ↔ type g = GateType.MEASURE.
Proof. unfold isMeasure. by destruct (type g). Qed.

Lemma marked_targets (gs sorted : list Gate) (q : Z) :
  sorted ≡ₚ gs →
  q ∈ newSet (map target (List.filter isMeasure sorted))
  ↔ ∃ g, g ∈ gs ∧ type g = GateType.MEASURE ∧ target g = q.
Proof.
  intros Hperm. destruct (newSet_spec (map target (List.filter isMeasure sorted)))
    as [_ ->].
  change (map target (List.filter isMeasure sorted))
    with (target <$> List.filter isMeasure sorted).
  rewrite list_elem_of_fmap. setoid_rewrite elem_of_List_filter.
  setoid_rewrite isMeasure_type. setoid_rewrite Hperm. naive_solver.
Qed.

Lemma measureLine_call (q : Z) :
  measureLine q = call "measure" [pretty q; pretty q].
Proof. by rewrite call_two. Qed.

Lemma measurementOf_spec (gs sorted : list Gate) :
  sorted ≡ₚ gs →
  ((∃ g, g ∈ gs ∧ type g = GateType.MEASURE) →
     ∃ qs, StronglySorted Z.lt qs
       ∧ (∀ q, q ∈ qs ↔ ∃ g, g ∈ gs ∧ type g = GateType.MEASURE ∧ target g = q)
       ∧ measurementOf sorted = map (fun q => call "measure" [pretty q; pretty q]) qs)
  ∧ ((¬ ∃ g, g ∈ gs ∧ type g = GateType.MEASURE) →
       measurementOf sorted = [measureAll]).
Proof.
  intros Hperm. unfold measurementOf.
  set (marked := newSet (map target (List.filter isMeasure sorted))).
  pose proof (λ q, marked_targets gs sorted q Hperm) as Hmarked. fold marked in Hmarked.
  destruct (newSet_spec (map target (List.filter isMeasure sorted))) as [Hnd _].
  fold marked in Hnd.
  destruct (sorted_targets marked) as [Hp Hs]. split.
  - intros (g & Hg & Hty).
    assert (target g ∈ marked) as Hin by (apply Hmarked; eauto).
    destruct marked as [|q0 marked']; [by apply elem_of_nil in Hin|].
    change (0 <? length (q0 :: marked'))%nat with true. cbv iota.
    exists (sortBy Z.sub (q0 :: marked')). split_and!.
    + apply StronglySorted_le_lt; [done|]. by rewrite Hp.
    + intros q. by rewrite Hp, Hmarked.
    + apply map_ext. intros q. apply measureLine_call.
  - intros Hnone. destruct marked as [|q0 marked']; [done|]. exfalso.
    apply Hnone. destruct (Hmarked q0) as [(g & ? & ? & _) _]; [left|]. eauto.
Qed.

(** C2. A MEASURE gate puts no operation line into the per-column part: its
    section is empty or just the comment of its column.  After all gate
    sections the measurement heading follows; if some gate is a MEASURE, the
    lines after it are [qc.measure(q, q)] for the targets q of the MEASURE
    gates, each once, in ascending order; otherwise it is the loop that
    measures every qubit q into classical bit q. *)
Theorem generatePython_measurement (numberToString : JS.number -> string) (st : State) :
  let sorted := sortBy byColumnThenTarget (gates st) in
  let lines := (generateLines numberToString (numQubits st) [gates st] 0%nat).1 in
  ∃ sections measurement,
    sorted ≡ₚ gates st
    ∧ lines = preamble numberToString (numQubits st) ++ concat sections
            ++ [measurementHeading] ++ measurement ++ [simulate]
    ∧ python (generatePython numberToString st) = join lines
    ∧ Forall2 (fun g s =>
         gateSection numberToString g s
         ∧ (type g = GateType.MEASURE → s = [] ∨ s = [columnComment (column g)]))
        sorted sections
    ∧ ((∃ g, g ∈ gates st ∧ type g = GateType.MEASURE) →
         ∃ qs, StronglySorted Z.lt qs
           ∧ (∀ q, q ∈ qs
                   ↔ ∃ g, g ∈ gates st ∧ type g = GateType.MEASURE ∧ target g = q)
           ∧ measurement = map (fun q => call "measure" [pretty q; pretty q]) qs)
    ∧ ((¬ ∃ g, g ∈ gates st ∧ type g = GateType.MEASURE) →
         measurement
         = ["for q in range(n_qubits):" +:+ nl +:+ "    qc.measure(q, q)" +:+ nl]).
Proof.
  intros sorted lines.
  assert (generateLines numberToString (numQubits st) [gates st] 0%nat
          = (preamble numberToString (numQubits st)
               ++ emitted numberToString (-1) sorted
               ++ [measurementHeading] ++ measurementOf sorted ++ [simulate],
             [gates st] ++ [sorted])) as Hshape.
  { by apply generateLines_shape. }
  destruct (emitted_sections numberToString (-1) sorted) as (sections & Hsec & Heq).
  destruct (sorted_gates (gates st)) as [Hperm _].
  destruct (measurementOf_spec (gates st) sorted Hperm) as [Hsome Hnone].
  exists sections, (measurementOf sorted). unfold lines, generatePython.
  rewrite Hshape. simpl. rewrite <- Heq. split_and!; try done.
  eapply Forall2_impl; [exact Hsec|]. intros g s Hgs. split; [done|].
  intros Hty. destruct Hgs as (comment & Hc & Ht).
  rewrite (Ht [] (template_measure _ g Hty)), app_nil_r. done.
Qed.

(** ** Column comments *)

Lemma columnThenTarget_column (a b : Gate) : columnThenTarget a b → column a ≤ column b.
Proof. unfold columnThenTarget. lia. Qed.

(** Once a gate went through the loop, [currentCol] is the largest column
    seen so far, so a change of column is the first visit of that column. *)
Lemma emitted_columnSections (numberToString : JS.number -> string) (cur : Z)
    (seen : list Z) (l : list Gate) :
  StronglySorted columnThenTarget l →
  cur ∈ seen → Forall (fun k => k ≤ cur) seen → Forall (fun g => cur ≤ column g) l →
  emitted numberToString cur l = columnSections numberToString seen l.
Proof.
  intros Hl. revert cur seen.
  induction Hl as [|g l Hl IH Hg]; intros cur seen Hcur Hseen Hlow; [done|].
  apply Forall_cons in Hlow as [Hgcur _]. simpl.
  rewrite (IH (column g) (column g :: seen)).
  - f_equal. rewrite Forall_forall in Hseen.
    repeat case_bool_decide; try done.
    + assert (column g ≤ cur) by auto. assert (column g = cur) by lia. done.
    + congruence.
  - left.
  - constructor; [lia|]. eapply Forall_impl; [exact Hseen|]. simpl. lia.
  - eapply Forall_impl; [exact Hg|]. apply columnThenTarget_column.
Qed.

Lemma emitted_from_marker (numberToString : JS.number -> string) (l : list Gate) :
  StronglySorted columnThenTarget l →
  (∀ g, head l = Some g → column g ≠ -1) →
  emitted numberToString (-1) l = columnSections numberToString [] l.
Proof.
  intros Hl Hhead. destruct Hl as [|g l Hl Hg]; [done|]. simpl.
  rewrite (emitted_columnSections numberToString (column g) [column g] l Hl).
  - specialize (Hhead g eq_refl). by repeat case_bool_decide.
  - left.
  - by repeat constructor.
  - eapply Forall_impl; [exact Hg|]. apply columnThenTarget_column.
Qed.

Lemma head_least_column (gs sorted : list Gate) (g : Gate) :
  sorted ≡ₚ gs → StronglySorted columnThenTarget sorted →
  head sorted = Some g → leastColumnIs (column g) gs.
Proof.
  intros Hperm Hs Hhead. destruct Hs as [|g0 l Hl Hg0]; [done|].
  simpl in Hhead. simplify_eq. split.
  - exists g. split; [|done]. rewrite <- Hperm. left.
  - intros g' Hg'. rewrite <- Hperm in Hg'. apply elem_of_cons in Hg' as [->|Hg']; [done|].
    rewrite Forall_forall in Hg0. by apply columnThenTarget_column, Hg0.
Qed.

(** C3, as stated, fails on a board whose least column is -1, the value
    [currentCol] starts from: the gate of column -1 comes out without the
    comment of its column. *)
Lemma columnsCommentedOnce_fails_at_marker :
  ¬ columnsCommentedOnce numberText markerBoard.
Proof.
  intros (sorted & Hperm & _ & Hlines & _).
  apply Permutation_singleton_r in Hperm. subst sorted.
  vm_compute in Hlines. discriminate Hlines.
Qed.

(** C3, amended. Unless the least column that holds a gate is -1, the gates
    come out by ascending column, ties by ascending target, with the comment
    of each column that holds a gate once, before the first gate of that
    column; and generation leaves the gate array of the state, and every
    array that was in the store, as it was. *)
Theorem generatePython_columns (numberToString : JS.number -> string) (st : State) :
  ¬ leastColumnIs (-1) (gates st) →
  columnsCommentedOnce numberToString st
  ∧ (∀ (h : store) (gatesRef : nat),
       h !! gatesRef = Some (gates st) →
       ∀ r, (r < length h)%nat →
            (generateLines numberToString (numQubits st) h gatesRef).2 !! r = h !! r).
Proof.
  intros Hleast.
  destruct (sorted_gates (gates st)) as [Hperm Hsorted]. split.
  - unfold columnsCommentedOnce, generatePython. cbv zeta.
    rewrite (generateLines_shape numberToString _ [gates st] 0%nat (gates st) eq_refl).
    exists (sortBy byColumnThenTarget (gates st)).
    split_and!; try done. simpl. rewrite emitted_from_marker; [done..|].
    intros g Hhead Hcol. apply Hleast. rewrite <- Hcol.
    by eapply head_least_column.
  - intros h gatesRef Hgs r Hr.
    rewrite (generateLines_shape numberToString _ h gatesRef (gates st) Hgs).
    simpl. by rewrite lookup_app_l.
Qed.

Lemma generatePython_columns_witness :
  ¬ leastColumnIs (-1) (gates boardWithCnot)
  ∧ columnsCommentedOnce numberText boardWithCnot.
Proof.
  assert (¬ leastColumnIs (-1) (gates boardWithCnot)) as Hleast.
  { intros [(g & Hg & Hcol) _].
    apply list_elem_of_singleton in Hg. subst g. discriminate Hcol. }
  split; [exact Hleast|].
  exact (proj1 (generatePython_columns numberText boardWithCnot Hleast)).
Defined.

(** * Further properties *)

(** ** Reading the occupancy map *)

Lemma lookup_insert_cellKey_eq (m : gmap string Gate) (g : Gate) (c r col row : Z) :
  <[cellKey c r := g]> m !! cellKey col row
  = if decide (c = col ∧ r = row) then Some g else m !! cellKey col row.
Proof.
  rewrite lookup_insert. case_decide as Hk; case_decide as Hcr; try done.
  - apply cellKey_inj in Hk. tauto.
  - destruct Hcr as [-> ->]. done.
Qed.

Lemma occupy_lookup_eq (m : gmap string Gate) (g : Gate) (col row : Z) :
  occupy m g !! cellKey col row
  = if decide (occupies g col row) then Some g else m !! cellKey col row.
Proof.
  destruct (decide (occupies g col row)) as [Ho|Ho];
    unfold occupy; unfold occupies in Ho;
    destruct (isControlled (type g)) eqn:Hc, (isSwap (type g)) eqn:Hs,
      (control g) as [c|] eqn:Hctl, (pair g) as [p|] eqn:Hp;
    rewrite ?lookup_insert_cellKey_eq;
    repeat case_decide; try done; exfalso; naive_solver.
Qed.

Lemma occupancy_from_lookup_eq (gs : list Gate) (m : gmap string Gate) (col row : Z) :
  fold_left occupy gs m !! cellKey col row
  = match lastOccupant gs col row with
    | Some g => Some g
    | None => m !! cellKey col row
    end.
Proof.
  unfold lastOccupant. revert m. induction gs as [|g gs IH]; intros m; [done|].
  simpl. rewrite IH, occupy_lookup_eq, filter_cons.
  destruct (decide (occupies g col row)) as [Hg|Hg]; [|done].
  destruct (filter (λ g0, occupies g0 col row) gs) as [|g' l] eqn:Hf; [done|].
  rewrite last_cons_cons. destruct (last (g' :: l)) eqn:Hl; [done|].
  by apply last_None in Hl.
Qed.

(** X1. The occupancy map answers, for every cell, with the last gate of the
    list that occupies the cell, and with nothing exactly when no gate
    does. *)
Theorem occupancy_last_occupant (gs : list Gate) (col row : Z) :
  occupancy gs !! cellKey col row = lastOccupant gs col row
  ∧ (occupancy gs !! cellKey col row = None ↔ ¬ occupied gs col row)
  ∧ (∀ g, occupancy gs !! cellKey col row = Some g →
          g ∈ gs ∧ occupies g col row).
Proof.
  assert (occupancy gs !! cellKey col row = lastOccupant gs col row) as Heq.
  { unfold occupancy. rewrite occupancy_from_lookup_eq, lookup_empty.
    by destruct (lastOccupant gs col row). }
  split; [done|]. rewrite Heq. unfold lastOccupant, occupied. split.
  - rewrite last_None. split.
    + intros Hnil (g & Hg & Ho).
      assert (g ∈ filter (λ g0, occupies g0 col row) gs) as Hin
        by by apply list_elem_of_filter.
      rewrite Hnil in Hin. by apply elem_of_nil in Hin.
    + intros Hfree. destruct (filter _ gs) as [|g l] eqn:Hf; [done|].
      exfalso. apply Hfree. exists g.
      assert (g ∈ filter (λ g0, occupies g0 col row) gs) as Hin
        by (rewrite Hf; left).
      apply list_elem_of_filter in Hin. tauto.
  - intros g Hlast. apply last_Some_elem_of in Hlast.
    apply list_elem_of_filter in Hlast. tauto.
Qed.

(** ** Drops that succeed *)

Lemma valid_qubit (st : State) (row c : Z) (q : JS.number) :
  JS.toInteger q = Some c → 0 ≤ c → JS.ge (JS.ofZ c) (numQubits st) = false →
  c ≠ row → invalidQubit st row q = false.
Proof.
  intros Hq Hc Hge Hrow. apply not_true_iff_false.
  rewrite invalidQubit_badQubit. unfold badQubit. rewrite Hq.
  intros [?|[?|?]]; [lia|congruence|done].
Qed.

Lemma placeGate_accepted (st : State) (g : Gate) :
  ¬ rejected (gates st) g →
  placeGate st g = mkOutcome true (setGates (fun prev => prev ++ [g]) st) [].
Proof.
  intros Hacc. unfold placeGate, rejected in *.
  destruct (cellHasGate (gates st) (target g) (column g)) eqn:Ht.
  { apply cellHasGate_true in Ht. tauto. }
  assert (∀ p, isSwap (type g) = true → pair g = Some p →
               cellHasGate (gates st) p (column g) = false) as Hpair.
  { intros p Hs Hp. apply cellHasGate_false. intros Ho. apply Hacc.
    right. right. split; [done|]. right. by exists p. }
  assert (isSwap (type g) = true → pair g ≠ None) as Hsome.
  { intros Hs Hp. apply Hacc. right. right. split; [done|]. by left. }
  destruct (isControlled (type g)) eqn:Hc.
  - destruct (control g) as [c|] eqn:Hctl.
    2:{ exfalso. apply Hacc. right. left. split; [done|]. by left. }
    destruct (cellHasGate (gates st) c (column g)) eqn:Hcc.
    { apply cellHasGate_true in Hcc. exfalso. apply Hacc.
      right. left. split; [done|]. right. by exists c. }
    destruct (isSwap (type g)) eqn:Hs; [|done].
    destruct (pair g) as [p|] eqn:Hp; [|by destruct Hsome].
    by rewrite Hpair.
  - destruct (isSwap (type g)) eqn:Hs; [|done].
    destruct (pair g) as [p|] eqn:Hp; [|by destruct Hsome].
    by rewrite Hpair.
Qed.

(** X2. A drop whose answer is valid, on cells that are free, appends
    exactly the gate the drop stands for (type, cell, and the control, pair or
    angle entered) at the end of the list, raises no alert and touches nothing
    else of the state. *)
Theorem handleDrop_valid (Number : string -> JS.number) (st : State)
    (data : string) (row col : Z) (answer : option string) (rnd : string)
    (g : Gate) :
  dropMakes Number st data row col rnd answer g →
  ¬ rejected (gates st) g →
  handleDrop Number st data row col answer rnd
  = mkOutcome () (setGates (fun prev => prev ++ [g]) st) []
  ∧ gates (after (handleDrop Number st data row col answer rnd)) = gates st ++ [g].
Proof.
  intros Hdrop Hfree.
  assert (handleDrop Number st data row col answer rnd
          = mkOutcome () (setGates (fun prev => prev ++ [g]) st) []) as ->; [|done].
  unfold handleDrop.
  destruct Hdrop as [type answer Hty Hs|type input Hty Hr Hfin
                    |type input c Hty Hc Hq H0 Hn Hrow|input p Hty Hq H0 Hn Hrow];
    rewrite Hty.
  - rewrite Hs. by rewrite placeGate_accepted.
  - assert (isSingle type = false) as -> by by destruct type.
    rewrite Hr, Hfin. simpl. by rewrite placeGate_accepted.
  - assert (isSingle type = false) as -> by by destruct type.
    assert (isRotation type = false) as -> by by destruct type.
    rewrite Hc, (valid_qubit st row c _ Hq H0 Hn Hrow), Hq.
    by rewrite placeGate_accepted.
  - simpl. rewrite (valid_qubit st row p _ Hq H0 Hn Hrow), Hq.
    by rewrite placeGate_accepted.
Qed.

Lemma handleDrop_valid_witness :
  dropMakes integerLiteral emptyBoard "CNOT" 1 0 "a1" (Some "0") cnot_0_1
  ∧ ¬ rejected (gates emptyBoard) cnot_0_1
  ∧ gates (after (handleDrop integerLiteral emptyBoard "CNOT" 1 0 (Some "0") "a1"))
    = [cnot_0_1].
Proof.
  assert (dropMakes integerLiteral emptyBoard "CNOT" 1 0 "a1" (Some "0") cnot_0_1)
    as Hdrop.
  { apply (drop_controlled integerLiteral emptyBoard "CNOT" 1 0 "a1"
             GateType.CNOT "0" 0); reflexivity || lia. }
  assert (¬ rejected (gates emptyBoard) cnot_0_1) as Hfree.
  { assert (∀ c r, ¬ occupied [] c r) as Hnone.
    { intros c r (g & Hg & _). by apply elem_of_nil in Hg. }
    intros [Ht|[(_ & [Hc|(c & _ & Ho)])|(Hs & _)]].
    - by apply Hnone in Ht.
    - discriminate Hc.
    - by apply Hnone in Ho.
    - discriminate Hs. }
  split; [exact Hdrop|]. split; [exact Hfree|].
  exact (proj2 (handleDrop_valid integerLiteral emptyBoard "CNOT" 1 0 (Some "0")
                  "a1" cnot_0_1 Hdrop Hfree)).
Defined.

(** X3. Whatever is dropped, and whatever is answered, [handleDrop] leaves
    the gates already on the board where they are, in their order, and adds
    at most one gate, at the end, whose target is the cell of the drop; the
    sizes, the generated text and the session are not touched. *)
Theorem handleDrop_adds_at_most_one (Number : string -> JS.number) (st : State)
    (data : string) (row col : Z) (answer : option string) (rnd : string) :
  let st' := after (handleDrop Number st data row col answer rnd) in
  (st' = st
   ∨ ∃ g, st' = setGates (fun prev => prev ++ [g]) st
          ∧ column g = col ∧ target g = row ∧ id g = uid data rnd
          ∧ typeOfName data = Some (type g))
  ∧ numQubits st' = numQubits st ∧ numColumns st' = numColumns st
  ∧ python st' = python st ∧ notebookCode st' = notebookCode st
  ∧ jupyterSessionRef st' = jupyterSessionRef st.
Proof.
  assert (∀ g, column g = col → target g = row → id g = uid data rnd →
               typeOfName data = Some (type g) →
            let st' := after (placeGate st g) in
            (st' = st
             ∨ ∃ g, st' = setGates (fun prev => prev ++ [g]) st
                    ∧ column g = col ∧ target g = row ∧ id g = uid data rnd
                    ∧ typeOfName data = Some (type g))
            ∧ numQubits st' = numQubits st ∧ numColumns st' = numColumns st
            ∧ python st' = python st ∧ notebookCode st' = notebookCode st
            ∧ jupyterSessionRef st' = jupyterSessionRef st) as Hplace.
  { intros g Hcol Hrow Hid Hty.
    destruct (placeGate_cases st g) as [(_ & _ & ->)|(_ & _ & -> & _)]; simpl.
    - split_and!; auto.
    - split_and!; try done. right. by exists g. }
  unfold handleDrop. destruct (typeOfName data) as [type|] eqn:Hty.
  2:{ simpl. split_and!; auto. }
  destruct (isSingle type); [by apply Hplace|].
  destruct (isRotation type).
  { destruct answer as [input|]; [|simpl; split_and!; auto].
    destruct (JS.isFinite (Number input)); [by apply Hplace|].
    simpl; split_and!; auto. }
  destruct (isControlled type).
  { destruct answer as [input|]; [|simpl; split_and!; auto].
    destruct (invalidQubit st row (Number input)); [simpl; split_and!; auto|].
    by apply Hplace. }
  destruct (isSwap type); [|simpl; split_and!; auto].
  destruct answer as [input|]; [|simpl; split_and!; auto].
  destruct (invalidQubit st row (Number input)); [simpl; split_and!; auto|].
  by apply Hplace.
Qed.

(** ** Removing what was placed *)

Lemma accepted_cells_free (gs : list Gate) (g : Gate) (row : Z) :
  ¬ rejected gs g → occupies g (column g) row → ¬ occupied gs (column g) row.
Proof.
  intros Hacc (_ & Hrow) Hocc. apply Hacc. unfold rejected.
  destruct Hrow as [<-|[(Hc & Hctl)|(Hs & Hp)]].
  - by left.
  - right. left. split; [done|]. right. by exists row.
  - right. right. split; [done|]. right. by exists row.
Qed.

Lemma filter_keepAt_free (gs : list Gate) (row col : Z) :
  ¬ occupied gs col row → List.filter (keepAt row col) gs = gs.
Proof.
  intros Hfree. induction gs as [|g gs IH]; [done|]. simpl.
  assert (keepAt row col g = true) as ->.
  { apply keepAt_occupies. intros Ho. apply Hfree. exists g. split; [left|done]. }
  f_equal. apply IH. intros (g' & Hg' & Ho). apply Hfree. exists g'.
  split; [by right|done].
Qed.

(** X4. Placing a gate and then removing at one of its cells (its target,
    the control of a CNOT/CZ, the pair of a SWAP) gives back the state from
    before the placement. *)
Theorem placeGate_then_removeGateAt (st : State) (g : Gate) (row : Z) :
  value (placeGate st g) = true →
  occupies g (column g) row →
  removeGateAt (after (placeGate st g)) row (column g) = st.
Proof.
  intros Hacc Hrow.
  destruct (placeGate_cases st g) as [(_ & Hv & _)|(Hfree & _ & -> & _)];
    [congruence|].
  pose proof (accepted_cells_free _ _ _ Hfree Hrow) as Hcell.
  destruct st as [nq nc gs py nb ses out busy url tok].
  unfold removeGateAt, setGates. simpl in *. f_equal.
  rewrite List.filter_app, filter_keepAt_free by done. simpl.
  assert (keepAt row (column g) g = false) as ->.
  { apply not_true_iff_false. rewrite keepAt_occupies. tauto. }
  apply app_nil_r.
Qed.

Lemma placeGate_then_removeGateAt_witness :
  value (placeGate emptyBoard cnot_0_1) = true
  ∧ occupies cnot_0_1 (column cnot_0_1) 0
  ∧ removeGateAt (after (placeGate emptyBoard cnot_0_1)) 0 (column cnot_0_1)
    = emptyBoard.
Proof.
  assert (occupies cnot_0_1 (column cnot_0_1) 0) as Hocc.
  { split; [reflexivity|]. right. left. split; reflexivity. }
  split; [reflexivity|]. split; [exact Hocc|].
  exact (placeGate_then_removeGateAt emptyBoard cnot_0_1 0 eq_refl Hocc).
Defined.

(** X5. After [removeGateAt(row, col)] the cell is free and no cell is
    occupied that was free before; on a free cell the removal changes
    nothing, so removing twice is removing once. *)
Theorem removeGateAt_frees_cell (st : State) (row col : Z) :
  cellHasGate (gates (removeGateAt st row col)) row col = false
  ∧ (∀ r c, cellHasGate (gates (removeGateAt st row col)) r c = true →
            cellHasGate (gates st) r c = true)
  ∧ (cellHasGate (gates st) row col = false → removeGateAt st row col = st)
  ∧ removeGateAt (removeGateAt st row col) row col = removeGateAt st row col.
Proof.
  assert (∀ s, cellHasGate (gates s) row col = false → removeGateAt s row col = s)
    as Hnoop.
  { intros s Hfree%cellHasGate_false. destruct s. unfold removeGateAt, setGates.
    simpl in *. f_equal. by apply filter_keepAt_free. }
  assert (cellHasGate (gates (removeGateAt st row col)) row col = false) as Hfreed.
  { apply cellHasGate_false. intros (g & Hg & Ho). simpl in Hg.
    apply elem_of_List_filter in Hg as [_ Hk]. by apply keepAt_occupies in Hk. }
  split_and!; [done| |apply Hnoop|by apply Hnoop].
  intros r c. rewrite !cellHasGate_true. intros (g & Hg & Ho). simpl in Hg.
  apply elem_of_List_filter in Hg as [Hg _]. by exists g.
Qed.

(** ** The gates of an editing session *)

Lemma wellFormed_placeGate (st : State) (g : Gate) :
  Forall wellFormed (gates st) → wellFormed g →
  Forall wellFormed (gates (after (placeGate st g))).
Proof.
  intros Hst Hg.
  destruct (placeGate_cases st g) as [(_ & _ & ->)|(_ & _ & _ & ->)]; [done|].
  apply Forall_app. auto.
Qed.

Lemma valid_qubit_integer (st : State) (row : Z) (q : JS.number) :
  invalidQubit st row q = false → ∃ c, JS.toInteger q = Some c ∧ c ≠ row.
Proof.
  intros Hinv. pose proof (valid_other_qubit st row q Hinv) as Hrow.
  unfold invalidQubit, JS.isInteger in Hinv.
  destruct (JS.toInteger q) as [c|]; [|done].
  exists c. split; [done|]. congruence.
Qed.

Lemma wellFormed_handleDrop (Number : string -> JS.number) (st : State)
    (data : string) (row col : Z) (answer : option string) (rnd : string) :
  Forall wellFormed (gates st) →
  Forall wellFormed (gates (after (handleDrop Number st data row col answer rnd))).
Proof.
  intros Hst. unfold handleDrop.
  destruct (typeOfName data) as [type|]; [|done].
  destruct (isSingle type) eqn:Hsingle.
  { simpl. apply wellFormed_placeGate; [done|].
    unfold wellFormed. simpl. by rewrite Hsingle. }
  destruct (isRotation type) eqn:Hrot.
  { destruct answer as [input|]; [|done].
    destruct (JS.isFinite (Number input)) eqn:Hfin; [|done].
    simpl. apply wellFormed_placeGate; [done|].
    unfold wellFormed. simpl. rewrite Hsingle, Hrot. eauto. }
  destruct (isControlled type) eqn:Hctl.
  { destruct answer as [input|]; [|done].
    destruct (invalidQubit st row (Number input)) eqn:Hinv; [done|].
    simpl. apply wellFormed_placeGate; [done|].
    unfold wellFormed. simpl. rewrite Hsingle, Hrot, Hctl.
    split_and!; try done. by eapply valid_qubit_integer. }
  destruct (isSwap type); [|done].
  destruct answer as [input|]; [|done].
  destruct (invalidQubit st row (Number input)) eqn:Hinv; [done|].
  simpl. apply wellFormed_placeGate; [done|].
  unfold wellFormed. simpl. rewrite Hsingle, Hrot, Hctl.
  split_and!; try done. by eapply valid_qubit_integer.
Qed.

Lemma Forall_sublist {A : Type} (P : A → Prop) (l' l : list A) :
  l' `sublist_of` l → Forall P l → Forall P l'.
Proof.
  rewrite !Forall_forall. intros Hsub Hl x Hx. apply Hl.
  by eapply elem_of_sublist.
Qed.

Lemma wellFormed_edit (Number : string -> JS.number) (st st' : State) :
  edit Number st st' → Forall wellFormed (gates st) → Forall wellFormed (gates st').
Proof.
  intros Hedit Hst. destruct Hedit as [st data row col answer rnd|st row col|st|st].
  - by apply wellFormed_handleDrop.
  - eapply Forall_sublist; [|done].
    unfold removeGateAt. simpl. rewrite filter_keepAt. apply sublist_filter.
  - eapply Forall_sublist; [|done]. apply sublist_take.
  - constructor.
Qed.

Lemma wellFormed_template (numberToString : JS.number -> string) (g : Gate) :
  wellFormed g → ∃ t, template numberToString g t.
Proof.
  unfold wellFormed. destruct (type g) eqn:Hty; simpl.
  1-6: intros _; eexists; by eapply template_simple; rewrite Hty.
  1-3: intros _; eexists; by eapply template_rotation; rewrite Hty.
  1-2: intros (_ & _ & c & Hc & _); eexists;
       by eapply template_controlled; [rewrite Hty|exact Hc].
  - intros (_ & _ & p & Hp & _). eexists. by eapply template_swap.
  - intros _. eexists. by eapply template_measure.
Qed.

(** X6. Every gate on a board that an editing session reaches has the shape
    of its type: nothing but type and cell for a single-qubit gate or a
    measurement, a finite angle for a rotation, a control off the target for
    a CNOT/CZ, a pair off the target for a SWAP.  So every such gate has a
    line template, and the generated section of the gate is fully
    determined. *)
Theorem reachable_wellFormed (Number : string -> JS.number) (st : State) :
  reachable Number st →
  Forall wellFormed (gates st)
  ∧ ∀ numberToString g, g ∈ gates st → ∃ t, template numberToString g t.
Proof.
  intros Hreach.
  assert (Forall wellFormed (gates st)) as Hwf.
  { induction Hreach as [st Hnil|st st' _ IH Hedit].
    - rewrite Hnil. constructor.
    - by eapply wellFormed_edit. }
  split; [done|]. intros numberToString g Hg.
  apply wellFormed_template. rewrite Forall_forall in Hwf. auto.
Qed.

Lemma reachable_wellFormed_witness :
  reachable integerLiteral boardWithCnot
  ∧ Forall wellFormed (gates boardWithCnot).
Proof.
  assert (reachable integerLiteral boardWithCnot) as Hreach.
  { apply (reachable_edit integerLiteral emptyBoard).
    - apply reachable_empty. reflexivity.
    - apply edit_drop. }
  split; [exact Hreach|].
  exact (proj1 (reachable_wellFormed integerLiteral boardWithCnot Hreach)).
Defined.

(** ** The generated text does not depend on the order of placement *)

Lemma reachable_disjoint (Number : string -> JS.number) (st : State) :
  reachable Number st → StronglySorted disjointCells (gates st).
Proof.
  intros Hreach.
  assert (StronglySorted disjointCells (gates st) ∧ Forall endpointsApart (gates st))
    as [Hcells _]; [|done].
  induction Hreach as [st Hnil|st st' _ IH Hedit].
  - rewrite Hnil. split; constructor.
  - by eapply wellPlaced_edit.
Qed.

Lemma disjoint_same_cell (gs : list Gate) (g1 g2 : Gate) :
  StronglySorted disjointCells gs → g1 ∈ gs → g2 ∈ gs →
  column g1 = column g2 → target g1 = target g2 → g1 = g2.
Proof.
  intros Hgs [i Hi]%list_elem_of_lookup [j Hj]%list_elem_of_lookup Hcol Htgt.
  assert (occupies g1 (column g1) (target g1)) as Ho1 by by split; [|left].
  assert (occupies g2 (column g1) (target g1)) as Ho2 by by split; [|left].
  destruct (Nat.lt_trichotomy i j) as [Hij|[->|Hij]].
  - by destruct (StronglySorted_lookup _ _ i j g1 g2 Hgs Hij Hi Hj _ _ Ho1).
  - congruence.
  - by destruct (StronglySorted_lookup _ _ j i g2 g1 Hgs Hij Hj Hi _ _ Ho2).
Qed.

(** X7. On a board reached by an editing session the generated text depends
    on which gates are on the board and on [numQubits] only: a board holding
    the same gates in another order of placement generates the same text. *)
Theorem generatePython_order_independent (Number : string -> JS.number)
    (numberToString : JS.number -> string) (st st' : State) :
  reachable Number st →
  gates st' ≡ₚ gates st → numQubits st' = numQubits st →
  python (generatePython numberToString st')
  = python (generatePython numberToString st).
Proof.
  intros Hreach Hperm Hn.
  pose proof (reachable_disjoint Number st Hreach) as Hdis.
  destruct (sorted_gates (gates st)) as [Hp Hs].
  destruct (sorted_gates (gates st')) as [Hp' Hs'].
  assert (sortBy byColumnThenTarget (gates st')
          = sortBy byColumnThenTarget (gates st)) as Hsame.
  { apply (StronglySorted_unique_strong columnThenTarget); try done.
    - intros g1 g2 Hg1 Hg2 H12 H21.
      rewrite Hp', Hperm in Hg1. rewrite Hp in Hg2.
      unfold columnThenTarget in H12, H21.
      apply (disjoint_same_cell (gates st)); [done..|lia|lia].
    - by rewrite Hp', Hp. }
  unfold generatePython. simpl.
  rewrite (generateLines_shape numberToString _ [gates st'] 0%nat (gates st') eq_refl),
    (generateLines_shape numberToString _ [gates st] 0%nat (gates st) eq_refl).
  simpl. by rewrite Hsame, Hn.
Qed.

Lemma generatePython_order_independent_witness :
  reachable integerLiteral boardWithTwo
  ∧ gates (setGates (fun _ => [h_2; cnot_0_1]) emptyBoard) ≡ₚ gates boardWithTwo
  ∧ python (generatePython numberText
              (setGates (fun _ => [h_2; cnot_0_1]) emptyBoard))
    = python (generatePython numberText boardWithTwo).
Proof.
  assert (reachable integerLiteral boardWithTwo) as Hreach.
  { apply (reachable_edit integerLiteral boardWithCnot); [|apply edit_drop].
    apply (reachable_edit integerLiteral emptyBoard); [|apply edit_drop].
    apply reachable_empty. reflexivity. }
  assert (gates (setGates (fun _ => [h_2; cnot_0_1]) emptyBoard)
          ≡ₚ gates boardWithTwo) as Hperm.
  { apply perm_swap. }
  split; [exact Hreach|]. split; [exact Hperm|].
  exact (generatePython_order_independent integerLiteral numberText boardWithTwo
           (setGates (fun _ => [h_2; cnot_0_1]) emptyBoard) Hreach Hperm eq_refl).
Defined.

(** ** Undoing several times *)

Lemma undo_gates (st : State) : gates (undo st) = slice_0_m1 (gates st).
Proof. done. Qed.

(** X8. Undoing k times drops the last k gates of the list, whatever put
    them there, and stops at the empty list; nothing else of the state
    changes. *)
Theorem undo_iter (k : nat) (st : State) :
  Nat.iter k undo st
  = setGates (fun prev => take (length prev - k)%nat prev) st.
Proof.
  induction k as [|k IH]; simpl.
  - destruct st. unfold setGates. simpl. f_equal.
    by rewrite Nat.sub_0_r, firstn_all.
  - rewrite IH. destruct st as [nq nc gs py nb ses out busy url tok].
    unfold undo, setGates, slice_0_m1. simpl. f_equal.
    rewrite take_take, length_take. f_equal. lia.
Qed.

(** ** Staying on the grid *)








(** ** What a cell shows *)

Lemma lookup_None_free (gs : list Gate) (col row : Z) :
  occupancy gs !! cellKey col row = None → ¬ occupied gs col row.
Proof.
  intros Hl. apply cellHasGate_false. unfold cellHasGate. by rewrite Hl.
Qed.

Lemma cellDecoration_symbol (gs : list Gate) (row col : Z) (deco : Decoration)
    (s : string) :
  cellDecoration gs row col = Some deco → symbol deco = Some s →
  occupied gs col row.
Proof.
  unfold cellDecoration.
  destruct (List.find (spansColumn col) gs) as [multi|] eqn:Hfind; [|done].
  apply List.find_some in Hfind as [Hin Hspan]. apply list_elem_of_In in Hin.
  unfold spansColumn in Hspan. apply andb_true_iff in Hspan as [Hcol _].
  apply Z.eqb_eq in Hcol.
  destruct (if isSwap (type multi) then pair multi else control multi) as [o|];
    [|done].
  destruct ((row <? Z.min (target multi) o) || (Z.max (target multi) o <? row));
    [done|].
  intros [= <-]. simpl. intros Hsym. exists multi. split; [done|].
  split; [done|].
  destruct (Z.eqb_spec row (target multi)) as [->|_]; [by left|].
  destruct (isControlled (type multi)) eqn:Hc; simpl in Hsym.
  - case_bool_decide as Hctl; [right; left; done|].
    destruct (isSwap (type multi)) eqn:Hs; simpl in Hsym; [|done].
    case_bool_decide as Hp; [right; right; done|done].
  - destruct (isSwap (type multi)) eqn:Hs; simpl in Hsym; [|done].
    case_bool_decide as Hp; [right; right; done|done].
Qed.

(** X10. A cell shows a pill or the blank square exactly when it holds a
    gate, and then the blank square if that gate is a CNOT, CZ or SWAP.  No
    cell ever shows a connector with a symbol: [renderCellContent] only asks
    [cellDecoration] about cells that hold no gate, and the symbols (the
    target, control and swap marks) belong to cells that hold one. *)
Theorem renderCellContent_never_symbol (Number : string -> JS.number)
    (numberToString toFixed4 : JS.number -> string) (gs : list Gate)
    (row col : Z) :
  let view := renderCellContent Number numberToString toFixed4 gs row col in
  (∀ s, view ≠ ViewConnector (Some s))
  ∧ (cellHasGate gs row col = true
     ↔ (∃ text, view = ViewPill text) ∨ view = ViewSpacer)
  ∧ (∀ g, occupancy gs !! cellKey col row = Some g →
          isControlled (type g) = true ∨ isSwap (type g) = true →
          view = ViewSpacer).
Proof.
  unfold renderCellContent, cellHasGate. split_and!.
  - intros s. destruct (occupancy gs !! cellKey col row) as [g|] eqn:Hl.
    + destruct (isPlain (type g)), (isRotation (type g)), (isMeasure g); done.
    + destruct (cellDecoration gs row col) as [deco|] eqn:Hd; [|done].
      intros [= Hsym]. by apply (lookup_None_free gs col row Hl),
        (cellDecoration_symbol gs row col deco s).
  - destruct (occupancy gs !! cellKey col row) as [g|] eqn:Hl.
    + split; [intros _|done].
      destruct (isPlain (type g)), (isRotation (type g)), (isMeasure g); eauto.
    + destruct (cellDecoration gs row col) as [deco|].
      * split; [done|]. by intros [[text [=]]|[=]].
      * split; [done|]. by intros [[text [=]]|[=]].
  - intros g -> Hty. unfold isMeasure. by destruct Hty, (type g).
Qed.

(** ** Exporting the generated text *)

Lemma generated_text_head (numberToString : JS.number -> string) (st : State) :
  ∃ rest,
    python (generatePython numberToString st)
    = "# Auto-generated by Quantum Circuit Builder (React)" +:+ nl
      +:+ "# Requires: qiskit, qiskit-aer" +:+ nl +:+ rest.
Proof.
  unfold generatePython. simpl.
  rewrite (generateLines_shape numberToString _ [gates st] 0%nat (gates st) eq_refl).
  eexists. simpl. unfold preamble, join. simpl.
  rewrite !append_assoc. reflexivity.
Qed.

(** X11. The Download button always hands over one file,
    [generated_circuit.py], and it is never empty.  With a text in the box the
    file holds it and the state stays; with none, the file holds the
    placeholder line although the text is generated into the state by the
    same click, and likewise the Copy button then writes the empty text to the
    clipboard. *)
Theorem export_takes_text_of_render (numberToString : JS.number -> string)
    (st : State) :
  let '(afterDownload, files) := downloadPython numberToString st in
  let '(afterCopy, clipboard) := onCopy numberToString st in
  (∃ file, files = [file] ∧ fileName file = "generated_circuit.py"
           ∧ content file ≠ ""
           ∧ (python st ≠ "" → content file = python st ∧ afterDownload = st)
           ∧ (python st = "" →
                content file = "# (empty)" +:+ nl
                ∧ afterDownload = generatePython numberToString st
                ∧ python afterDownload ≠ content file))
  ∧ clipboard = python st
  ∧ (python st = "" →
       afterCopy = generatePython numberToString st ∧ python afterCopy ≠ clipboard).
Proof.
  unfold downloadPython, onCopy, doDownload.
  destruct (generated_text_head numberToString st) as [rest Hhead].
  case_bool_decide as Hpy; cbv beta iota zeta.
  - split.
    + eexists. split; [done|]. cbn [fileName content]. split_and!; try done.
      intros _. split_and!; try done. rewrite Hhead. discriminate.
    + split; [done|]. intros _. split; [done|]. rewrite Hhead, Hpy. discriminate.
  - split.
    + eexists. split; [done|]. cbn [fileName content]. split_and!; done.
    + done.
Qed.

(** ** Settings and sessions *)

(** X12. Settings saved in the modal survive a reload of the page: the page
    mounted from the storage has the saved token, and the saved base URL
    unless that was empty, in which case it falls back to
    [http://localhost:8888]; the first connection after the reload is made
    with them, the empty token being left out. *)
Theorem settings_survive_reload (b t : string) (p : Page) (srv : Service) :
  let reloaded := component (mount (localStorage (onSave b t p))) in
  let url := if bool_decide (b = "") then "http://localhost:8888" else b in
  jupyterBaseUrl reloaded = url
  ∧ jupyterToken reloaded = t
  ∧ (ensureJupyterSession reloaded srv).2
    = [StartNew url (if bool_decide (t = "") then None else Some t)].
Proof.
  simpl. rewrite lookup_insert_ne by done. rewrite !lookup_insert_eq. simpl.
  assert ((if bool_decide (t = "") then "" else t) = t) as ->
    by by case_bool_decide.
  split_and!; try done.
  unfold ensureJupyterSession. simpl. by destruct (startNewResult srv).
Qed.

(** X13. Saving new settings does not reconnect: while a session with a live
    kernel is stored, the next run still goes to that kernel and no session
    is started at the new address. *)
Theorem onSave_keeps_session (numberToString : JS.number -> string)
    (b t : string) (p : Page) (srv : Service) (s : Session) (k : Kernel) :
  jupyterSessionRef (component p) = Some s → kernel s = Some k →
  (runOnJupyter numberToString (component (onSave b t p)) srv).2
  = [RequestExecute k (python (component p)) true].
Proof.
  intros Hs Hk. unfold runOnJupyter.
  set (st2 := setJupyterOut _ (setJupyterBusy true _)).
  assert (jupyterSessionRef st2 = Some s) as Hs2.
  { unfold st2. simpl. case_bool_decide; done. }
  rewrite (ensureJupyterSession_stored st2 srv s k Hs2 Hk), Hk.
  by destruct (doneError srv).
Qed.

Lemma onSave_keeps_session_witness :
  jupyterSessionRef connectedBoard = Some liveSession
  ∧ kernel liveSession = Some (mkKernel "python3")
  ∧ (runOnJupyter numberText
       (component (onSave "http://other:8888" "secret"
                     (mkPage connectedBoard false true ∅))) quietService).2
    = [RequestExecute (mkKernel "python3") "print(1)" true].
Proof.
  split; [reflexivity|]. split; [reflexivity|].
  exact (onSave_keeps_session numberText "http://other:8888" "secret"
           (mkPage connectedBoard false true ∅) quietService liveSession
           (mkKernel "python3") eq_refl eq_refl).
Defined.

Lemma sameButRun_refl (a : State) : sameButRun a a.
Proof. by repeat split. Qed.

Lemma sameButRun_trans (a b c : State) :
  sameButRun a b → sameButRun b c → sameButRun a c.
Proof. unfold sameButRun. naive_solver congruence. Qed.

Lemma onIOPub_same (st : State) (msg : IOPub) : sameButRun (onIOPub st msg) st.
Proof.
  destruct msg as [text|ename evalue tb|[text|]|[text|]|]; simpl;
    try case_bool_decide; by repeat split.
Qed.

Lemma fold_onIOPub_same (msgs : list IOPub) (st : State) :
  sameButRun (fold_left onIOPub msgs st) st.
Proof.
  revert st. induction msgs as [|msg msgs IH]; intros st; simpl.
  - apply sameButRun_refl.
  - eapply sameButRun_trans; [apply IH|apply onIOPub_same].
Qed.

Lemma runOnJupyter_unfold (numberToString : JS.number -> string) (st : State)
    (srv : Service) :
  runOnJupyter numberToString st srv
  = let failed e s :=
      setJupyterBusy false
        (setJupyterOut (fun prev => prev +:+ nl +:+ "[ERR] " +:+ e +:+ nl) s) in
    match ensureJupyterSession (prepared numberToString st) srv with
    | (inr e, st3, calls) => (failed e st3, calls)
    | (inl session, st3, calls) =>
        match kernel session with
        | None => (failed (nullKernelError srv) st3, calls)
        | Some k =>
            let st4 := fold_left onIOPub (published srv) st3 in
            (match doneError srv with
             | Some e => failed e st4
             | None =>
                 setJupyterBusy false
                   (setJupyterOut (fun prev => prev +:+ nl +:+ "[done]" +:+ nl) st4)
             end,
             calls ++ [RequestExecute k (python st) true])
        end
    end.
Proof.
  unfold runOnJupyter, prepared.
  destruct (ensureJupyterSession _ srv) as [[[session|e] st3] calls]; [|done].
  destruct (kernel session); [|done]. by destruct (doneError srv).
Qed.

Lemma ensureJupyterSession_fresh (st : State) (srv : Service) :
  jupyterSessionRef st = None →
  ensureJupyterSession st srv
  = let calls := [StartNew (jupyterBaseUrl st)
                    (if bool_decide (jupyterToken st = "") then None
                     else Some (jupyterToken st))] in
    match startNewResult srv with
    | inl session => (inl session, setSessionRef (Some session) st, calls)
    | inr e => (inr e, st, calls)
    end.
Proof. intros Hnone. unfold ensureJupyterSession. by rewrite Hnone. Qed.

Lemma prepared_session (numberToString : JS.number -> string) (st : State) :
  jupyterSessionRef (prepared numberToString st) = jupyterSessionRef st
  ∧ jupyterBaseUrl (prepared numberToString st) = jupyterBaseUrl st
  ∧ jupyterToken (prepared numberToString st) = jupyterToken st
  ∧ gates (prepared numberToString st) = gates st
  ∧ numQubits (prepared numberToString st) = numQubits st
  ∧ numColumns (prepared numberToString st) = numColumns st.
Proof. unfold prepared. case_bool_decide; by repeat split. Qed.

Lemma runOnJupyter_session (numberToString : JS.number -> string) (st st3 : State)
    (srv : Service) (r : Session + string) (calls : list Call) :
  ensureJupyterSession (prepared numberToString st) srv = (r, st3, calls) →
  sameButRun (runOnJupyter numberToString st srv).1 st3
  ∧ jupyterBusy (runOnJupyter numberToString st srv).1 = false.
Proof.
  intros Hens. rewrite runOnJupyter_unfold, Hens. cbv zeta.
  destruct r as [session|e]; [|split; [by repeat split|done]].
  destruct (kernel session); [|split; [by repeat split|done]].
  pose proof (fold_onIOPub_same (published srv) st3) as Hsame.
  destruct (doneError srv); simpl; (split; [|done]);
    unfold sameButRun in *; simpl; tauto.
Qed.

(** X14. Without a stored session a run first starts one, at the base URL
    and with the token of the settings, stores it and sends its single
    execute request to the new kernel; the run after it, whatever the service
    answers then, starts nothing and sends its request to the same kernel. *)
Theorem runOnJupyter_connects_once (numberToString : JS.number -> string)
    (st : State) (srv srv' : Service) (s : Session) (k : Kernel) :
  jupyterSessionRef st = None →
  startNewResult srv = inl s → kernel s = Some k →
  let first := runOnJupyter numberToString st srv in
  let second := runOnJupyter numberToString first.1 srv' in
  first.2 = [StartNew (jupyterBaseUrl st)
               (if bool_decide (jupyterToken st = "") then None
                else Some (jupyterToken st));
             RequestExecute k (python st) true]
  ∧ jupyterSessionRef first.1 = Some s
  ∧ second.2 = [RequestExecute k (python first.1) true]
  ∧ jupyterSessionRef second.1 = Some s.
Proof.
  intros Hnone Hstart Hk first second.
  destruct (prepared_session numberToString st) as (Hps & Hpu & Hpt & _).
  assert (ensureJupyterSession (prepared numberToString st) srv
          = (inl s, setSessionRef (Some s) (prepared numberToString st),
             [StartNew (jupyterBaseUrl st)
                (if bool_decide (jupyterToken st = "") then None
                 else Some (jupyterToken st))])) as Hens.
  { rewrite ensureJupyterSession_fresh by congruence.
    cbv zeta. by rewrite Hstart, Hpu, Hpt. }
  assert (first.2 = [StartNew (jupyterBaseUrl st)
                       (if bool_decide (jupyterToken st = "") then None
                        else Some (jupyterToken st));
                     RequestExecute k (python st) true]) as Hcalls.
  { unfold first. rewrite runOnJupyter_unfold, Hens. cbv zeta. by rewrite Hk. }
  assert (jupyterSessionRef first.1 = Some s) as Hstored.
  { destruct (runOnJupyter_session _ _ _ _ _ _ Hens) as [Hsame _].
    destruct Hsame as (_ & _ & _ & _ & _ & Href & _).
    unfold first. by rewrite Href. }
  destruct (prepared_session numberToString first.1) as (Hps1 & _).
  assert (ensureJupyterSession (prepared numberToString first.1) srv'
          = (inl s, prepared numberToString first.1, [])) as Hens'.
  { apply (ensureJupyterSession_stored _ _ s k); [congruence|done]. }
  split_and!; try done.
  - unfold second. rewrite runOnJupyter_unfold, Hens'. cbv zeta. by rewrite Hk.
  - destruct (runOnJupyter_session _ _ _ _ _ _ Hens') as [Hsame _].
    destruct Hsame as (_ & _ & _ & _ & _ & Href & _).
    unfold second. rewrite Href. congruence.
Qed.

Lemma runOnJupyter_connects_once_witness :
  jupyterSessionRef emptyBoard = None
  ∧ startNewResult startingService = inl liveSession
  ∧ kernel liveSession = Some (mkKernel "python3")
  ∧ (runOnJupyter numberText
       (runOnJupyter numberText emptyBoard startingService).1 quietService).2
    = [RequestExecute (mkKernel "python3")
         (python (runOnJupyter numberText emptyBoard startingService).1) true].
Proof.
  split; [reflexivity|]. split; [reflexivity|]. split; [reflexivity|].
  exact (proj1 (proj2 (proj2
    (runOnJupyter_connects_once numberText emptyBoard startingService
       quietService liveSession (mkKernel "python3") eq_refl eq_refl eq_refl)))).
Defined.

(** X15. When the session cannot be started, a run sends no execute request:
    the only call is the attempt to start, the output is the error alone, the
    busy flag is down again and no session is stored, so the next run tries
    to start one again; the board is as it was. *)
Theorem runOnJupyter_cannot_connect (numberToString : JS.number -> string)
    (st : State) (srv srv' : Service) (e : string) :
  jupyterSessionRef st = None →
  startNewResult srv = inr e →
  let first := runOnJupyter numberToString st srv in
  first.2 = [StartNew (jupyterBaseUrl st)
               (if bool_decide (jupyterToken st = "") then None
                else Some (jupyterToken st))]
  ∧ jupyterOut first.1 = nl +:+ "[ERR] " +:+ e +:+ nl
  ∧ jupyterBusy first.1 = false
  ∧ jupyterSessionRef first.1 = None
  ∧ gates first.1 = gates st ∧ numQubits first.1 = numQubits st
  ∧ head (runOnJupyter numberToString first.1 srv').2
    = Some (StartNew (jupyterBaseUrl st)
              (if bool_decide (jupyterToken st = "") then None
               else Some (jupyterToken st))).
Proof.
  intros Hnone Hstart first.
  destruct (prepared_session numberToString st) as (Hps & Hpu & Hpt & Hpg & Hpn & _).
  assert (ensureJupyterSession (prepared numberToString st) srv
          = (inr e, prepared numberToString st,
             [StartNew (jupyterBaseUrl st)
                (if bool_decide (jupyterToken st = "") then None
                 else Some (jupyterToken st))])) as Hens.
  { rewrite ensureJupyterSession_fresh by congruence.
    cbv zeta. by rewrite Hstart, Hpu, Hpt. }
  assert (first
          = (setJupyterBusy false
               (setJupyterOut (fun prev => prev +:+ nl +:+ "[ERR] " +:+ e +:+ nl)
                  (prepared numberToString st)),
             [StartNew (jupyterBaseUrl st)
                (if bool_decide (jupyterToken st = "") then None
                 else Some (jupyterToken st))])) as Hfirst.
  { unfold first. by rewrite runOnJupyter_unfold, Hens. }
  rewrite Hfirst. cbn [fst snd].
  set (st1 := setJupyterBusy false _).
  assert (jupyterSessionRef st1 = None) as Hnone1.
  { change (jupyterSessionRef st1)
      with (jupyterSessionRef (prepared numberToString st)). congruence. }
  assert (jupyterBaseUrl st1 = jupyterBaseUrl st) as Hu1 by exact Hpu.
  assert (jupyterToken st1 = jupyterToken st) as Ht1 by exact Hpt.
  split_and!.
  - done.
  - unfold st1, prepared. case_bool_decide; reflexivity.
  - done.
  - done.
  - exact Hpg.
  - exact Hpn.
  - destruct (prepared_session numberToString st1) as (Hps1 & Hpu1 & Hpt1 & _).
    rewrite runOnJupyter_unfold, ensureJupyterSession_fresh by congruence.
    cbv zeta. rewrite Hpu1, Hpt1, Hu1, Ht1.
    destruct (startNewResult srv') as [s'|e']; [|done].
    destruct (kernel s'); done.
Qed.

Lemma runOnJupyter_cannot_connect_witness :
  jupyterSessionRef emptyBoard = None
  ∧ startNewResult quietService = inr "unreachable"
  ∧ (runOnJupyter numberText emptyBoard quietService).2
    = [StartNew "http://localhost:8888" None]
  ∧ jupyterOut (runOnJupyter numberText emptyBoard quietService).1
    = nl +:+ "[ERR] unreachable" +:+ nl.
Proof.
  destruct (runOnJupyter_cannot_connect numberText emptyBoard quietService
              quietService "unreachable" eq_refl eq_refl) as (Hcalls & Hout & _).
  split; [reflexivity|]. split; [reflexivity|]. split; [exact Hcalls|exact Hout].
Defined.

Lemma prepared_forgets_run (numberToString : JS.number -> string) (st : State)
    (f : string -> string) (b : bool) :
  prepared numberToString (setJupyterOut f (setJupyterBusy b st))
  = prepared numberToString st.
Proof.
  destruct st as [nq nc gs py nb ses out busy url tok].
  unfold prepared. simpl. case_bool_decide; reflexivity.
Qed.

(** X16. A run starts from an empty output and ends with the busy flag down:
    what the output and the busy flag were before has no influence on the
    state and the calls of the run, and the board is never touched. *)
Theorem runOnJupyter_starts_afresh (numberToString : JS.number -> string)
    (st : State) (srv : Service) (f : string -> string) (b : bool) :
  runOnJupyter numberToString (setJupyterOut f (setJupyterBusy b st)) srv
  = runOnJupyter numberToString st srv
  ∧ jupyterBusy (runOnJupyter numberToString st srv).1 = false
  ∧ gates (runOnJupyter numberToString st srv).1 = gates st
  ∧ numQubits (runOnJupyter numberToString st srv).1 = numQubits st
  ∧ numColumns (runOnJupyter numberToString st srv).1 = numColumns st.
Proof.
  split.
  { by rewrite !runOnJupyter_unfold, prepared_forgets_run. }
  destruct (ensureJupyterSession (prepared numberToString st) srv)
    as [[r st3] calls] eqn:Hens.
  destruct (runOnJupyter_session _ _ _ _ _ _ Hens) as [Hsame Hbusy].
  destruct (prepared_session numberToString st) as (_ & _ & _ & Hg & Hq & Hc).
  assert (numQubits st3 = numQubits (prepared numberToString st)
          ∧ numColumns st3 = numColumns (prepared numberToString st)
          ∧ gates st3 = gates (prepared numberToString st)) as (Hq3 & Hc3 & Hg3).
  { unfold ensureJupyterSession in Hens.
    destruct (jupyterSessionRef (prepared numberToString st)) as [cur|].
    - destruct (kernel cur).
      + by injection Hens as _ <- _.
      + by destruct (startNewResult srv); injection Hens as _ <- _.
    - by destruct (startNewResult srv); injection Hens as _ <- _. }
  destruct Hsame as (Hq1 & Hc1 & Hg1 & _).
  split_and!; [done|congruence..].
Qed.

(** ** The in-app notebook *)

(** X17. A run of the notebook without a loaded runtime does nothing.  With
    one, the snippets run are an initial part of: the capture prelude, the
    cell, the two reads of the captured streams, the restoring of the
    streams; the cell is left as typed and the running flag is down at the
    end.  If the cell raises, the run stops there: the output is the error
    and the streams are not restored. *)
Theorem run_protocol (api : option (list string -> Reply)) (nb : Notebook) :
  (api = None → run api nb = (nb, []))
  ∧ (run api nb).2 `prefix_of`
      [capturePrelude; cell nb; readStdout; readStderr; restoreStreams]
  ∧ cell (run api nb).1 = cell nb
  ∧ (∀ py, api = Some py →
       running (run api nb).1 = false
       ∧ head (run api nb).2 = Some capturePrelude
       ∧ ∀ e, (∃ r, py [capturePrelude] = Returned r) →
              py [capturePrelude; cell nb] = Raised e →
              (run api nb).2 = [capturePrelude; cell nb]
              ∧ output (run api nb).1 = nl +:+ "[ERR] " +:+ e).
Proof.
  split; [by intros ->|].
  destruct api as [py|]; cbv beta iota zeta delta [run app].
  2:{ split_and!; [by eexists|done|done]. }
  destruct (py [capturePrelude]) as [r1|e1] eqn:H1.
  2:{ split_and!; [by eexists|done|].
      intros ? [= <-]. rewrite H1. split_and!; try done.
      intros e [r Hr] _. done. }
  destruct (py [capturePrelude; cell nb]) as [r2|e2] eqn:H2.
  2:{ split_and!; [by eexists|done|].
      intros ? [= <-]. rewrite H2. split_and!; try done.
      intros e _ [= <-]. done. }
  destruct (py [capturePrelude; cell nb; readStdout]) as [out|e3] eqn:H3.
  2:{ split_and!; [by eexists|done|].
      intros ? [= <-]. rewrite H2. split_and!; done. }
  destruct (py [capturePrelude; cell nb; readStdout; readStderr])
    as [err|e4] eqn:H4.
  2:{ split_and!; [by eexists|done|].
      intros ? [= <-]. rewrite H2. split_and!; done. }
  destruct (py [capturePrelude; cell nb; readStdout; readStderr; restoreStreams])
    as [r5|e5] eqn:H5.
  - split_and!; [by exists []|done|].
    intros ? [= <-]. rewrite H2. split_and!; done.
  - split_and!; [by exists []|done|].
    intros ? [= <-]. rewrite H2. split_and!; done.
Qed.

Example run_with_raising_cell :
  run (Some raisingRuntime) (openNotebook "print(x)")
  = (mkNotebook "print(x)" (nl +:+ "[ERR] NameError") false,
     [capturePrelude; "print(x)"]).
Proof. reflexivity. Qed.

(** X18. Whatever the board, the generated text mentions Qiskit as a word, so
    the notebook opened on it shows that very text together with the warning
    that Qiskit does not run in the browser. *)
Theorem generated_text_is_detected (numberToString : JS.number -> string)
    (st : State) :
  let code := notebookCode (generatePython numberToString st) in
  code = python (generatePython numberToString st)
  ∧ cell (openNotebook code) = code
  ∧ qiskitDetected (cell (openNotebook code)) = true.
Proof.
  destruct (generated_text_head numberToString st) as [rest Hhead].
  assert (notebookCode (generatePython numberToString st)
          = python (generatePython numberToString st)) as Hsame by done.
  cbv zeta. rewrite Hsame, Hhead. split; [done|].
  unfold openNotebook. case_bool_decide as Hempty; [discriminate Hempty|].
  split; [done|]. vm_compute. reflexivity.
Qed.
